(** * FormPreviewer: the form-submission state engine

    A shallow embedding of [FormPreviewer.tsx], under
    [apps/nextjs-app/src/features/app/blocks/view/form/components/].

    The component keeps four pieces of hook state: the persisted mapping
    [formDataMap] ([useLocalStorage]), the in-memory draft [formData]
    ([useMap]), the validation set [errors] ([useSet]) and the busy flag
    [loading] ([useState]).  Its handlers [onChange], [onVerify], [onReset]
    and [onSubmit] are embedded as functions on an explicit state record;
    callbacks handed to [setTimeout] and the continuation after
    [await submit(formData)] are kept as data in the state, together with
    the values of the render they close over.

    The three storage hooks are those of react-use:
    - [useLocalStorage(key, initial)] gives the value stored under [key]
      (or [initial]); its setter writes the value to the medium and makes it
      the hook state;
    - [useMap(initialMap)] gives [set(k, v)], which is
      [prev => ({...prev, [k]: v})], [remove(k)], which drops the key, and
      [reset()], which is [set(initialMap)] for the [initialMap] of the
      first render (the actions are memoised once);
    - [useSet(initialSet)] gives [add], [remove] and [reset()], which is
      [set(initialSet)], here the empty set.

    A handler sees the state of the render it was created in; events are
    handled one at a time and the component re-renders after each, so a
    handler is applied to the current state.  What outlives the event, a
    timer callback or the rest of [onSubmit] after its [await], keeps the
    [formDataMap] and [formData] of that render. *)

From stdpp Require Import gmap strings list fin_maps sorting.
From Stdlib Require Import ZArith.

Set Warnings "-register-all,-clear-no-such-hyp".

(** ** JavaScript values *)

(** A form value has type [unknown].  Numbers carry an integer payload: the
    handlers only ever compare a number with [''], that is test it for
    zero, and [NaN] and the infinities go through both handlers as any
    number other than zero does. *)
Inductive value :=
  | VUndefined
  | VNull
  | VBool (b : bool)
  | VNum (n : Z)
  | VStr (s : string)
  | VArr (items : list value)
  | VObj (props : list (string * value)).

(** [v == null]: true of [null] and [undefined] only. *)
Definition isNullish (v : value) : bool :=
  match v with
  | VUndefined | VNull => true
  | _ => false
  end.

(** Reading a property of a plain object, [o[k]], then testing it against
    [null]: a missing property reads as [undefined]. *)
Definition nullishEntry (o : gmap string value) (k : string) : bool :=
  match o !! k with
  | None => true
  | Some v => isNullish v
  end.

(** [ToString(ToPrimitive(v))] is the empty string, for [v] a string or an
    array.  [Array.prototype.join] prints [null] and [undefined] elements as
    the empty string; two or more elements always give a separator. *)
Fixpoint primitiveIsEmptyString (v : value) : bool :=
  match v with
  | VStr s => bool_decide (s = ""%string)
  | VArr [] => true
  | VArr [x] =>
      match x with
      | VUndefined | VNull => true
      | _ => primitiveIsEmptyString x
      end
  | _ => false
  end.

(** [v == ''] (abstract equality).  [null] and [undefined] equal only each
    other; booleans and numbers are compared with [ToNumber('') = 0]; objects
    go through [ToPrimitive]; a plain object prints as ['[object Object]']. *)
Definition looseEqEmptyString (v : value) : bool :=
  match v with
  | VUndefined | VNull => false
  | VBool b => negb b
  | VNum n => bool_decide (n = 0%Z)
  | VStr s => bool_decide (s = ""%string)
  | VArr _ => primitiveIsEmptyString v
  | VObj _ => false
  end.

(** ** Data supplied by the collaborators *)

(** A field, with its [id] as [field_id]. *)
Record field := {
  field_id : string;
  isComputed : bool;
  isLookup : bool;
}.

Record column := { required : bool }.

(** What one mounted component sees from its hooks and props: [localKey] is
    the result of [generateUniqLocalKey(tableId, view?.id)], [fields] the
    result of [useFields()], [columnMeta] comes from the view, and [submit]
    tells whether the optional [submit] prop was supplied. *)
Record context := {
  localKey : string;
  fields : list field;
  columnMeta : gmap string column;
  submit : bool;
}.

(** ** State *)

Inductive effect :=
  | SubmitCall (values : gmap string value)
  | ScrollIntoView (elementId : string)
  | ScrollToTop
  | Toast (title : string) (duration : Z).

(** The [formDataMap] and [formData] constants of the render in which a
    callback was created. *)
Record closure := {
  cl_formDataMap : gmap string (gmap string value);
  cl_formData : gmap string value;
}.

(** Callbacks handed to [setTimeout]. *)
Inductive task :=
  | PersistOmit (c : closure) (fieldId : string)
  | PersistSet (c : closure) (fieldId : string) (v : value)
  | ResetNotify (c : closure).

Record state := {
  formDataMap : gmap string (gmap string value);
  initialMap : gmap string value;
  formData : gmap string value;
  errors : gset string;
  loading : bool;
  now : nat;
  timers : list (nat * task);
  awaiting : list closure;
  trace : list effect;
}.

Inductive outcome :=
  | Throws
  | Returns (ok : bool).

Definition capture (s : state) : closure :=
  {| cl_formDataMap := formDataMap s; cl_formData := formData s |}.

(** ** Hook actions *)

(** [useLocalStorage]: the setter writes the value to the durable medium and
    keeps the hook state equal to what was written.  The component is the
    only writer of the medium while it is mounted, and the medium takes the
    write, so the hook state stands for the durable store.  The hook
    writes [JSON.stringify] of the mapping and keeps [JSON.parse] of that;
    [formDataMap] is the mapping handed to the setter, which is what the
    medium holds for the values JSON carries unchanged (strings, booleans,
    finite numbers, [null], and arrays and objects of these).  Statements
    about the values the medium holds are made with this in mind: they
    speak of the keys of an entry, or of values of that kind. *)
Definition setFormDataMap (m : gmap string (gmap string value)) (s : state) : state :=
  {| formDataMap := m; initialMap := initialMap s; formData := formData s;
     errors := errors s; loading := loading s; now := now s;
     timers := timers s; awaiting := awaiting s; trace := trace s |}.

Definition withFormData (d : gmap string value) (s : state) : state :=
  {| formDataMap := formDataMap s; initialMap := initialMap s; formData := d;
     errors := errors s; loading := loading s; now := now s;
     timers := timers s; awaiting := awaiting s; trace := trace s |}.

(** [useMap]: [set] and [remove] update the current map; [reset] is
    [() => set(initialMap)], where [initialMap] is the argument the hook
    received on the first render. *)
Definition setFormData (fieldId : string) (v : value) (s : state) : state :=
  withFormData (<[fieldId := v]> (formData s)) s.

Definition removeFormData (fieldId : string) (s : state) : state :=
  withFormData (delete fieldId (formData s)) s.

Definition resetFormData (s : state) : state :=
  withFormData (initialMap s) s.

Definition withErrors (e : gset string) (s : state) : state :=
  {| formDataMap := formDataMap s; initialMap := initialMap s;
     formData := formData s; errors := e; loading := loading s; now := now s;
     timers := timers s; awaiting := awaiting s; trace := trace s |}.

(** [useSet(new Set([]))]: [reset] goes back to the empty initial set. *)
Definition addError (fieldId : string) (s : state) : state :=
  withErrors (errors s ∪ {[fieldId]}) s.

Definition removeError (fieldId : string) (s : state) : state :=
  withErrors (errors s ∖ {[fieldId]}) s.

Definition resetErrors (s : state) : state := withErrors ∅ s.

Definition setLoading (b : bool) (s : state) : state :=
  {| formDataMap := formDataMap s; initialMap := initialMap s;
     formData := formData s; errors := errors s; loading := b; now := now s;
     timers := timers s; awaiting := awaiting s; trace := trace s |}.

Definition emit (e : effect) (s : state) : state :=
  {| formDataMap := formDataMap s; initialMap := initialMap s;
     formData := formData s; errors := errors s; loading := loading s;
     now := now s; timers := timers s; awaiting := awaiting s;
     trace := trace s ++ [e] |}.

(** The timer queue is kept in firing order: by due time, and by insertion
    among timers with the same due time. *)
Fixpoint enqueue (x : nat * task) (q : list (nat * task)) : list (nat * task) :=
  match q with
  | [] => [x]
  | y :: q' => if decide (y.1 ≤ x.1) then y :: enqueue x q' else x :: y :: q'
  end.

Definition setTimeout (t : task) (delay : nat) (s : state) : state :=
  {| formDataMap := formDataMap s; initialMap := initialMap s;
     formData := formData s; errors := errors s; loading := loading s;
     now := now s; timers := enqueue (now s + delay, t) (timers s);
     awaiting := awaiting s; trace := trace s |}.

(** Suspension of [onSubmit] at [await submit(formData)]. *)
Definition suspend (c : closure) (s : state) : state :=
  {| formDataMap := formDataMap s; initialMap := initialMap s;
     formData := formData s; errors := errors s; loading := loading s;
     now := now s; timers := timers s; awaiting := awaiting s ++ [c];
     trace := trace s |}.

(** ** The component *)

(** The hooks of the first render (lines 26-37), for a durable medium
    holding [persisted]: [useMap] receives
    [formDataMap?.[localKey] ?? {}], which is from then on the map its
    [reset] goes back to. *)
Definition mount (ctx : context) (persisted : gmap string (gmap string value)) : state :=
  {| formDataMap := persisted;
     initialMap := default ∅ (persisted !! localKey ctx);
     formData := default ∅ (persisted !! localKey ctx);
     errors := ∅; loading := false; now := 0;
     timers := []; awaiting := []; trace := [] |}.

(** Lines 40-43. *)
Definition visibleFields (ctx : context) : list field :=
  filter (λ f, negb (isComputed f) && negb (isLookup f) = true) (fields ctx).

(** Lines 49-73. *)
Definition onChange (ctx : context) (fieldId : string) (v : value)
    (s : state) : state :=
  let s1 :=
    if bool_decide (fieldId ∈ errors s) && negb (isNullish v)
       && negb (looseEqEmptyString v)
    then removeError fieldId s else s in
  if isNullish v then
    setTimeout (PersistOmit (capture s) fieldId) 0 (removeFormData fieldId s1)
  else
    setTimeout (PersistSet (capture s) fieldId v) 0 (setFormData fieldId v s1).

(** The reducer of [requiredFieldIds]; [columnMeta[field.id].required] throws
    a [TypeError] when the view has no entry for the field. *)
Definition collectRequired (cm : gmap string column)
    (acc : option (list string)) (f : field) : option (list string) :=
  match acc, cm !! field_id f with
  | Some ids, Some c => Some (if required c then ids ++ [field_id f] else ids)
  | _, _ => None
  end.

Definition requiredFieldIds (ctx : context) : option (list string) :=
  fold_left (collectRequired (columnMeta ctx)) (visibleFields ctx) (Some []).

(** The body of the [forEach] callback, on the pair of [firstErrorFieldId]
    and the error set. *)
Definition checkRequired (d : gmap string value)
    (acc : string * gset string) (fieldId : string) : string * gset string :=
  if nullishEntry d fieldId then
    ((if bool_decide (acc.1 = ""%string) then fieldId else acc.1),
     acc.2 ∪ {[fieldId]})
  else acc.

(** Lines 75-99.  The scroll is recorded as a request for the element
    [form-field-<id>]. *)
Definition onVerify (ctx : context) (s : state) : outcome * state :=
  let s1 := resetErrors s in
  match requiredFieldIds ctx with
  | None => (Throws, s1)
  | Some [] => (Returns true, s1)
  | Some ids =>
      let r := fold_left (checkRequired (formData s)) ids (""%string, errors s1) in
      let s2 := withErrors r.2 s1 in
      if bool_decide (r.1 = ""%string) then (Returns true, s2)
      else (Returns false, emit (ScrollIntoView ("form-field-" +:+ r.1)) s2)
  end.

(** Lines 101-105; [c] holds the [formDataMap] of the render the handler
    belongs to. *)
Definition onReset (ctx : context) (c : closure) (s : state) : state :=
  setFormDataMap (delete (localKey ctx) (cl_formDataMap c))
    (resetFormData (setLoading false s)).

Definition submitTimeout : nat := 1000.

(** Lines 107-114, up to the [await] when there is a collaborator, and
    through the [setTimeout] of lines 115-123 when there is none.  A
    [TypeError] thrown by [onVerify] rejects the promise of [onSubmit]. *)
Definition onSubmit (ctx : context) (s : state) : state :=
  match onVerify ctx s with
  | (Returns true, s1) =>
      let s2 := setLoading true s1 in
      if submit ctx then suspend (capture s) (emit (SubmitCall (formData s)) s2)
      else setTimeout (ResetNotify (capture s)) submitTimeout s2
  | (_, s1) => s1
  end.

(** The statements after the [await] (lines 115-123), run when the
    collaborator's promise resolves. *)
Definition resumeSubmit (c : closure) (s : state) : state :=
  setTimeout (ResetNotify c) submitTimeout s.

(** The bodies of the callbacks of lines 56-58, 64-72 and 115-123. *)
Definition runTask (ctx : context) (t : task) (s : state) : state :=
  match t with
  | PersistOmit c fieldId =>
      setFormDataMap
        (<[localKey ctx := delete fieldId (cl_formData c)]> (cl_formDataMap c)) s
  | PersistSet c fieldId v =>
      setFormDataMap
        (<[localKey ctx := <[fieldId := v]> (cl_formData c)]> (cl_formDataMap c)) s
  | ResetNotify c =>
      emit (Toast "actions.submitSucceed" 2000)
        (emit ScrollToTop (onReset ctx c s))
  end.

(** ** The event loop *)

(** A field edit, a click on the submit button, the collaborator's promise
    resolving or rejecting, and the passing of [d] milliseconds. *)
Inductive event :=
  | Change (fieldId : string) (v : value)
  | Click
  | Settle
  | Reject
  | Elapse (d : nat).

Definition dueBy (t : nat) (x : nat * task) : bool := bool_decide (x.1 ≤ t).

Definition withQueue (now' : nat) (q : list (nat * task)) (w : list closure)
    (s : state) : state :=
  {| formDataMap := formDataMap s; initialMap := initialMap s;
     formData := formData s; errors := errors s; loading := loading s;
     now := now'; timers := q; awaiting := w; trace := trace s |}.

(** Time passes by [d]: the timers due by then fire, in queue order. *)
Definition elapse (ctx : context) (d : nat) (s : state) : state :=
  let t := now s + d in
  let ready := filter (λ x, dueBy t x = true) (timers s) in
  let later := filter (λ x, dueBy t x = false) (timers s) in
  let s' := fold_left (λ a x, runTask ctx x.2 a) ready
              (withQueue (now s) later (awaiting s) s) in
  withQueue t (timers s') (awaiting s') s'.

(** The submit button is [disabled] while [loading] (line 189).  A rejected
    promise drops the rest of [onSubmit]. *)
Definition step (ctx : context) (s : state) (e : event) : state :=
  match e with
  | Change fieldId v => onChange ctx fieldId v s
  | Click => if loading s then s else onSubmit ctx s
  | Settle =>
      match awaiting s with
      | [] => s
      | c :: w => resumeSubmit c (withQueue (now s) (timers s) w s)
      end
  | Reject => withQueue (now s) (timers s) (tail (awaiting s)) s
  | Elapse d => elapse ctx d s
  end.

Definition run (ctx : context) (s : state) (es : list event) : state :=
  fold_left (step ctx) es s.

(** ** Notions used in the statements *)

(** The [required] flag the view gives a field; a field the view does not
    know has none. *)
Definition isRequired (ctx : context) (f : field) : bool :=
  match columnMeta ctx !! field_id f with
  | Some c => required c
  | None => false
  end.

(** Every visible field has an entry in [columnMeta]. *)
Definition hasColumnMeta (ctx : context) : bool :=
  forallb (λ f, bool_decide (is_Some (columnMeta ctx !! field_id f)))
    (visibleFields ctx).

(** A visible field that is required and whose draft value is null or
    absent. *)
Definition unfilled (ctx : context) (d : gmap string value) (f : field) : bool :=
  isRequired ctx f && nullishEntry d (field_id f).

Definition requiredIds (ctx : context) : list string :=
  field_id <$> filter (λ f, isRequired ctx f = true) (visibleFields ctx).

Definition missing (d : gmap string value) (ids : list string) : list string :=
  filter (λ i, nullishEntry d i = true) ids.

Definition firstNonEmpty (ids : list string) : string :=
  default ""%string (head (filter (λ i, i ≠ ""%string) ids)).

(** The names every plain object inherits from [Object.prototype]. *)
Definition objectPrototypeNames : list string :=
  ["constructor"; "toString"; "toLocaleString"; "valueOf";
   "hasOwnProperty"; "isPrototypeOf"; "propertyIsEnumerable"; "__proto__";
   "__defineGetter__"; "__defineSetter__"; "__lookupGetter__";
   "__lookupSetter__"]%string.

(** A field id is an identifier the application generates for a field.  It
    is not the empty string, which [onVerify] uses in [firstErrorFieldId]
    for "no failing field yet", and it is not a name a plain object
    inherits, for which [formData[fieldId]] would not read the draft. *)
Definition isFieldId (i : string) : bool :=
  negb (bool_decide (i = ""%string)) &&
  negb (bool_decide (i ∈ objectPrototypeNames)).

(** The view the component is given fits its fields: every visible field
    has its column metadata, and the ids of the visible fields are field
    ids. *)
Definition wellFormed (ctx : context) : bool :=
  hasColumnMeta ctx &&
  forallb (λ f, isFieldId (field_id f)) (visibleFields ctx).

(** The ids [onVerify] marks among the fields of [l]. *)
Definition missingOf (ctx : context) (d : gmap string value)
    (l : list field) : list string :=
  missing d (field_id <$> filter (λ f, isRequired ctx f = true) l).

(** ** Invariants, projections and example sessions *)

Definition fieldA : field :=
  {| field_id := "a"; isComputed := false; isLookup := false |}.
Definition fieldB : field :=
  {| field_id := "b"; isComputed := false; isLookup := false |}.

(** The fields of the spec's scenarios: [a] required, [b] optional. *)
Definition ctxAB (withSubmit : bool) : context :=
  {| localKey := "tbl1-viw1"; fields := [fieldA; fieldB];
     columnMeta := {[ "a"%string := {| required := true |};
                      "b"%string := {| required := false |} ]};
     submit := withSubmit |}.

Definition okClosure (PS : gmap string (gmap string value) → Prop)
    (PD : gmap string value → Prop) (c : closure) : Prop :=
  PS (cl_formDataMap c) ∧ PD (cl_formData c).

Definition okTask (PS : gmap string (gmap string value) → Prop)
    (PD : gmap string value → Prop) (t : task) : Prop :=
  match t with
  | PersistOmit c _ => okClosure PS PD c
  | PersistSet c _ v => okClosure PS PD c ∧ isNullish v = false
  | ResetNotify c => okClosure PS PD c
  end.

(** A property [PS] of persisted mappings and a property [PD] of drafts hold
    of everything a state holds or will write. *)
Definition okState (PS : gmap string (gmap string value) → Prop)
    (PD : gmap string value → Prop) (s : state) : Prop :=
  PS (formDataMap s) ∧ PD (formData s) ∧ PD (initialMap s) ∧
  Forall (λ x, okTask PS PD x.2) (timers s) ∧
  Forall (okClosure PS PD) (awaiting s).

(** The timer queue is in firing order. *)
Definition sortedQueue (q : list (nat * task)) : Prop :=
  StronglySorted (λ x y : nat * task, x.1 ≤ y.1) q.

Definition storeAX : gmap string (gmap string value) :=
  {[ "tbl1-viw1"%string := {[ "a"%string := VStr "x" ]} ]}.

(** The persisted mapping with every entry but that of [key] forgotten. *)
Definition ownEntry (key : string) (M : gmap string (gmap string value))
    : gmap string (gmap string value) :=
  match M !! key with
  | Some d => {[ key := d ]}
  | None => ∅
  end.

Definition ownClosure (key : string) (c : closure) : closure :=
  {| cl_formDataMap := ownEntry key (cl_formDataMap c);
     cl_formData := cl_formData c |}.

Definition ownTask (key : string) (t : task) : task :=
  match t with
  | PersistOmit c f => PersistOmit (ownClosure key c) f
  | PersistSet c f v => PersistSet (ownClosure key c) f v
  | ResetNotify c => ResetNotify (ownClosure key c)
  end.

Definition ownTimer (key : string) (x : nat * task) : nat * task :=
  (x.1, ownTask key x.2).

(** The state of a session as it would be had the durable medium held the
    entry of [key] only. *)
Definition ownState (key : string) (s : state) : state :=
  {| formDataMap := ownEntry key (formDataMap s);
     initialMap := initialMap s; formData := formData s;
     errors := errors s; loading := loading s; now := now s;
     timers := ownTimer key <$> timers s;
     awaiting := ownClosure key <$> awaiting s;
     trace := trace s |}.

(** A durable medium that holds an explicit [null] for field [a]. *)
Definition storeNullA : gmap string (gmap string value) :=
  {[ "tbl1-viw1"%string := {[ "a"%string := VNull ]} ]}.

(** Two forms with a draft each. *)
Definition storeTwo : gmap string (gmap string value) :=
  {[ "tbl1-viw1"%string := {[ "a"%string := VStr "x" ]};
     "tbl2-viw2"%string := {[ "c"%string := VNum 7 ]} ]}.

(** ** Rendering *)

(** What the component reads from the view besides [columnMeta]:
    [name], [description] and [options]. *)
Record viewOptions := {
  coverUrl : option string;
  logoUrl : option string;
  submitLabel : option string;
}.

Record formView := {
  view_name : option string;
  view_description : option string;
  view_options : option viewOptions;
}.

(** Truthiness of an optional string: [undefined] and [''] are falsy. *)
Definition truthyString (o : option string) : bool :=
  match o with
  | Some x => negb (bool_decide (x = ""%string))
  | None => false
  end.

(** [formData[fieldId] ?? null] (line 177). *)
Definition shownValue (s : state) (fieldId : string) : value :=
  match formData s !! fieldId with
  | Some v => if isNullish v then VNull else v
  | None => VNull
  end.

(** The props of one [FormField] (lines 174-180); its [onChange] is the
    [Change] event of [ff_key]. *)
Record formFieldProps := {
  ff_key : string;
  ff_field : field;
  ff_value : value;
  ff_errors : gset string;
}.

(** The submit button (lines 185-193). *)
Record buttonProps := {
  btn_disabled : bool;
  btn_spinner : bool;
  btn_label : string;
}.

(** What the returned element depends on: whether the container is inert
    (line 132), the cover image or else the gradient (lines 140-144), the
    logo (line 147), the title (line 164), the description (line 167) and,
    when there is a visible field, the fields and the button (line 169). *)
Record rendered := {
  r_inert : bool;
  r_cover : option string;
  r_logo : option string;
  r_title : string;
  r_description : option string;
  r_body : option (list formFieldProps * buttonProps);
}.

(** Lines 45, 126 and 128-201; [t] is the translation function. *)
Definition render (t : string → string) (ctx : context)
    (view : option formView) (s : state) : option rendered :=
  match view with
  | None => None
  | Some v =>
      let opts :=
        default {| coverUrl := None; logoUrl := None; submitLabel := None |}
          (view_options v) in
      Some
        {| r_inert := loading s;
           r_cover :=
             if truthyString (coverUrl opts) then coverUrl opts else None;
           r_logo :=
             if truthyString (logoUrl opts) then logoUrl opts else None;
           r_title := default (t "untitled"%string) (view_name v);
           r_description :=
             if truthyString (view_description v) then view_description v
             else None;
           r_body :=
             match visibleFields ctx with
             | [] => None
             | vf =>
                 Some
                   ((λ f, {| ff_key := field_id f; ff_field := f;
                             ff_value := shownValue s (field_id f);
                             ff_errors := errors s |}) <$> vf,
                    {| btn_disabled := loading s;
                       btn_spinner := loading s;
                       btn_label :=
                         if truthyString (submitLabel opts)
                         then default ""%string (submitLabel opts)
                         else t "common:actions.submit"%string |})
             end |}
  end.

(** ** Notions used in the further properties *)

Definition isReset (x : nat * task) : bool :=
  match x.2 with
  | ResetNotify _ => true
  | _ => false
  end.

(** The delayed resets waiting in the timer queue. *)
Definition pendingResets (q : list (nat * task)) : nat :=
  length (filter (λ x, isReset x = true) q).

(** The submissions under way: suspended at the [await], or waiting for
    the delayed reset. *)
Definition inFlight (s : state) : nat :=
  length (awaiting s) + pendingResets (timers s).

(** The arguments of the calls made to the collaborator. *)
Definition submitCalls (tr : list effect) : list (gmap string value) :=
  omap (λ e, match e with SubmitCall d => Some d | _ => None end) tr.

Definition isToast (e : effect) : bool :=
  match e with
  | Toast _ _ => true
  | _ => false
  end.

Definition toastCount (tr : list effect) : nat :=
  length (filter (λ e, isToast e = true) tr).

(** Every required visible field with a non-empty id has a non-null value
    in the draft. *)
Definition complete (ctx : context) (d : gmap string value) : Prop :=
  ∀ f, f ∈ visibleFields ctx → isRequired ctx f = true →
       field_id f ≠ ""%string → nullishEntry d (field_id f) = false.

(** A view with an empty name and an empty submit label. *)
Definition viewBlank : formView :=
  {| view_name := Some ""%string; view_description := None;
     view_options :=
       Some {| coverUrl := None; logoUrl := None;
               submitLabel := Some ""%string |} |}.

(** A view with only optional fields, one of them computed. *)
Definition ctxOptional : context :=
  {| localKey := "tbl1-viw1";
     fields := [fieldB;
                {| field_id := "c"; isComputed := true; isLookup := false |}];
     columnMeta := {[ "b"%string := {| required := false |} ]};
     submit := true |}.

(** A draft with both [a] and [b] filled. *)
Definition storeTwoFields : gmap string (gmap string value) :=
  {[ "tbl1-viw1"%string :=
       {[ "a"%string := VStr "x"; "b"%string := VStr "y" ]} ]}.

(** A view that has no column metadata for its field [b]. *)
Definition ctxNoMeta : context :=
  {| localKey := "tbl1-viw1"; fields := [fieldA; fieldB];
     columnMeta := {[ "a"%string := {| required := true |} ]};
     submit := true |}.

(** * Verification *)

(** ** The validation pass *)

Section verify.
Context (ctx : context).

Lemma collectRequired_None l :
  fold_left (collectRequired (columnMeta ctx)) l None = None.
Proof. induction l as [|f l IH]; [done|]. simpl. exact IH. Qed.

Lemma collectRequired_fold l acc :
  fold_left (collectRequired (columnMeta ctx)) l (Some acc) =
    if forallb (λ f, bool_decide (is_Some (columnMeta ctx !! field_id f))) l
    then Some (acc ++ (field_id <$> filter (λ f, isRequired ctx f = true) l))
    else None.
Proof.
  revert acc. induction l as [|f l IH]; intros acc; simpl.
  - by rewrite app_nil_r.
  - rewrite filter_cons.
    assert (Hreq : isRequired ctx f =
              match columnMeta ctx !! field_id f with
              | Some c => required c | None => false end) by done.
    destruct (columnMeta ctx !! field_id f) as [c|] eqn:Hc; simpl.
    + rewrite IH.
      destruct (forallb _ l); [|done].
      destruct (required c); simpl.
      * rewrite decide_True by done. by rewrite fmap_cons, <- app_assoc.
      * rewrite decide_False by (rewrite Hreq; done). done.
    + apply collectRequired_None.
Qed.

Lemma requiredFieldIds_spec :
  requiredFieldIds ctx =
    if hasColumnMeta ctx then Some (requiredIds ctx) else None.
Proof. unfold requiredFieldIds. by rewrite collectRequired_fold. Qed.

Lemma checkRequired_fold d ids first errs :
  fold_left (checkRequired d) ids (first, errs) =
    ((if bool_decide (first = ""%string)
      then firstNonEmpty (missing d ids) else first),
     errs ∪ list_to_set (missing d ids)).
Proof.
  revert first errs. induction ids as [|i ids IH]; intros first errs.
  - simpl. unfold missing, firstNonEmpty. simpl.
    f_equal; [|set_solver].
    destruct (decide (first = ""%string)) as [->|Hf]; [done|].
    by rewrite bool_decide_eq_false_2.
  - simpl. unfold checkRequired at 2. unfold missing. rewrite filter_cons.
    destruct (nullishEntry d i) eqn:Hi; simpl; rewrite IH; [|done].
    f_equal.
    + unfold firstNonEmpty, missing. rewrite filter_cons.
      destruct (decide (i ≠ ""%string)) as [Hne|He]; simpl.
      * destruct (decide (first = ""%string)) as [->|Hf].
        -- rewrite (bool_decide_eq_true_2 (""%string = ""%string)) by done.
           by rewrite bool_decide_eq_false_2.
        -- rewrite (bool_decide_eq_false_2 (first = ""%string)) by done.
           by rewrite bool_decide_eq_false_2.
      * apply dec_stable in He. subst i.
        destruct (decide (first = ""%string)) as [->|Hf].
        -- by rewrite !(bool_decide_eq_true_2 (""%string = ""%string)).
        -- rewrite (bool_decide_eq_false_2 (first = ""%string)) by done.
           by rewrite bool_decide_eq_false_2.
    + unfold missing. set_solver.
Qed.

(** What [onVerify] does when no [TypeError] is thrown. *)
Lemma onVerify_spec s :
  hasColumnMeta ctx = true →
  onVerify ctx s =
    let m := missing (formData s) (requiredIds ctx) in
    if bool_decide (firstNonEmpty m = ""%string)
    then (Returns true, withErrors (list_to_set m) s)
    else (Returns false,
          emit (ScrollIntoView ("form-field-" +:+ firstNonEmpty m))
            (withErrors (list_to_set m) s)).
Proof.
  intros Hcov. unfold onVerify. rewrite requiredFieldIds_spec, Hcov.
  destruct (requiredIds ctx) as [|i ids] eqn:Hids.
  - simpl. done.
  - rewrite checkRequired_fold. simpl.
    rewrite (left_id_L ∅ (∪)). done.
Qed.

Lemma onVerify_throws s :
  hasColumnMeta ctx = false → onVerify ctx s = (Throws, resetErrors s).
Proof.
  intros Hcov. unfold onVerify. by rewrite requiredFieldIds_spec, Hcov.
Qed.

End verify.

Section verify_order.
Context (ctx : context) (d : gmap string value).

Lemma missingOf_cons f l :
  missingOf ctx d (f :: l) =
    if unfilled ctx d f then field_id f :: missingOf ctx d l
    else missingOf ctx d l.
Proof.
  unfold missingOf, missing, unfilled. rewrite filter_cons.
  destruct (isRequired ctx f) eqn:Hr; simpl; [|done].
  rewrite filter_cons.
  by destruct (nullishEntry d (field_id f)) eqn:Hn; simpl.
Qed.

Lemma firstNonEmpty_cons i l :
  firstNonEmpty (i :: l) =
    if bool_decide (i = ""%string) then firstNonEmpty l else i.
Proof.
  unfold firstNonEmpty. rewrite filter_cons.
  destruct (decide (i = ""%string)) as [->|Hi].
  - by rewrite decide_False by (intros H; by apply H).
  - rewrite decide_True by done. by rewrite bool_decide_eq_false_2.
Qed.

Lemma firstNonEmpty_empty l :
  firstNonEmpty l = ""%string ↔ ∀ i, i ∈ l → i = ""%string.
Proof.
  induction l as [|i l IH].
  - split; [intros _ j Hj; by apply elem_of_nil in Hj | done].
  - rewrite firstNonEmpty_cons. case_bool_decide as Hi.
    + rewrite IH. split.
      * intros H j [->|Hj]%elem_of_cons; auto.
      * intros H j Hj. apply H. by right.
    + split; [done|]. intros H. apply H. by left.
Qed.

Lemma elem_of_missingOf i l :
  i ∈ missingOf ctx d l ↔ ∃ f, f ∈ l ∧ field_id f = i ∧ unfilled ctx d f = true.
Proof.
  induction l as [|f l IH].
  - split; [intros H; by apply elem_of_nil in H|].
    intros (f & H & _). by apply elem_of_nil in H.
  - rewrite missingOf_cons. destruct (unfilled ctx d f) eqn:Hf.
    + rewrite elem_of_cons, IH. split.
      * intros [->|(g & Hg & Hi & Hu)].
        -- exists f. split; [by left | done].
        -- exists g. split; [by right | done].
      * intros (g & [->|Hg]%elem_of_cons & Hi & Hu); [by left|].
        right. by exists g.
    + rewrite IH. split.
      * intros (g & Hg & Hi & Hu). exists g. split; [by right | done].
      * intros (g & [->|Hg]%elem_of_cons & Hi & Hu); [congruence|].
        by exists g.
Qed.

(** The id kept in [firstErrorFieldId] belongs to the first field, in the
    order of the list, that is unfilled and whose id is not the empty
    string. *)
Lemma firstNonEmpty_first l :
  firstNonEmpty (missingOf ctx d l) ≠ ""%string →
  ∃ pre f post,
    l = pre ++ f :: post ∧
    unfilled ctx d f = true ∧ field_id f ≠ ""%string ∧
    (∀ g, g ∈ pre → unfilled ctx d g = true → field_id g = ""%string) ∧
    firstNonEmpty (missingOf ctx d l) = field_id f.
Proof.
  induction l as [|a l IH]; [done|].
  rewrite missingOf_cons.
  destruct (unfilled ctx d a) eqn:Ha.
  - rewrite firstNonEmpty_cons. case_bool_decide as Hi.
    + intros H. destruct (IH H) as (pre & f & post & -> & Hf & Hn & Hpre & E).
      exists (a :: pre), f, post. repeat split; try done.
      intros g [->|Hg]%elem_of_cons Hu; [done|]. by apply Hpre.
    + intros _. exists [], a, l. repeat split; try done.
      intros g Hg. by apply elem_of_nil in Hg.
  - intros H. destruct (IH H) as (pre & f & post & -> & Hf & Hn & Hpre & E).
    exists (a :: pre), f, post. repeat split; try done.
    intros g [->|Hg]%elem_of_cons Hu; [congruence|]. by apply Hpre.
Qed.

End verify_order.

(** The error set [onVerify] leaves behind. *)
Lemma onVerify_errors ctx s :
  hasColumnMeta ctx = true →
  errors (onVerify ctx s).2 =
    list_to_set (missingOf ctx (formData s) (visibleFields ctx)).
Proof.
  intros Hcov. rewrite onVerify_spec by done. cbn zeta.
  by case_bool_decide.
Qed.

Lemma onVerify_marked ctx s i :
  hasColumnMeta ctx = true →
  i ∈ errors (onVerify ctx s).2 ↔
    ∃ f, f ∈ visibleFields ctx ∧ field_id f = i ∧
         unfilled ctx (formData s) f = true.
Proof.
  intros Hcov. rewrite onVerify_errors by done.
  rewrite elem_of_list_to_set. apply elem_of_missingOf.
Qed.

(** A field with a non-null draft value is not marked by [onVerify]. *)
Lemma onVerify_unmarked ctx s i :
  nullishEntry (formData s) i = false → i ∉ errors (onVerify ctx s).2.
Proof.
  intros Hi. destruct (hasColumnMeta ctx) eqn:Hcov.
  - rewrite onVerify_marked by done. intros (f & _ & <- & Hu).
    apply andb_true_iff in Hu as [_ Hn]. congruence.
  - rewrite onVerify_throws by done. simpl. set_solver.
Qed.

(** ** C1 *)

Lemma onVerify_returns ctx s ok s' :
  onVerify ctx s = (Returns ok, s') → hasColumnMeta ctx = true.
Proof.
  intros E. destruct (hasColumnMeta ctx) eqn:Hcov; [done|].
  rewrite onVerify_throws in E by done. discriminate.
Qed.

Lemma wellFormed_spec ctx :
  wellFormed ctx = true →
  hasColumnMeta ctx = true ∧
  ∀ f, f ∈ visibleFields ctx → field_id f ≠ ""%string.
Proof.
  unfold wellFormed. intros [Hcov Hids]%andb_true_iff. split; [done|].
  intros f Hf. rewrite forallb_forall in Hids.
  specialize (Hids f (proj1 (list_elem_of_In _ _) Hf)).
  unfold isFieldId in Hids. apply andb_true_iff in Hids as [Hne _].
  apply negb_true_iff, bool_decide_eq_false in Hne. done.
Qed.

(** What [onVerify] returns, for any ids: [firstErrorFieldId] starts as
    [''], so the pass returns [true] iff every required visible field with
    another id has a non-null draft value. *)
Lemma onVerify_success_iff ctx s :
  hasColumnMeta ctx = true →
  onVerify ctx s =
    (Returns (bool_decide
       (firstNonEmpty (missingOf ctx (formData s) (visibleFields ctx))
        = ""%string)),
     (onVerify ctx s).2) ∧
  (firstNonEmpty (missingOf ctx (formData s) (visibleFields ctx))
     = ""%string ↔
   ∀ f, f ∈ visibleFields ctx → isRequired ctx f = true →
        field_id f ≠ ""%string →
        nullishEntry (formData s) (field_id f) = false).
Proof.
  intros Hcov. split.
  - rewrite onVerify_spec by done. cbn zeta.
    unfold missingOf. fold (requiredIds ctx). by case_bool_decide.
  - rewrite firstNonEmpty_empty. split.
    + intros H f Hf Hr Hn. destruct (nullishEntry _ _) eqn:E; [|done].
      destruct Hn. apply H. apply elem_of_missingOf. exists f.
      unfold unfilled. by rewrite Hr, E.
    + intros H i (f & Hf & <- & Hu)%elem_of_missingOf.
      apply andb_true_iff in Hu as [Hr Hn].
      destruct (decide (field_id f = ""%string)) as [|Hne]; [done|].
      specialize (H f Hf Hr Hne). congruence.
Qed.

(** C1.  For a view that fits its fields, [onVerify] returns and rebuilds
    the error set from the draft alone: the set it leaves holds exactly the
    ids of the required visible fields whose draft value is null or absent,
    whatever the set held before the call, so a field with a non-null draft
    value is not left marked.  It returns [true] iff every required visible
    field has a non-null draft value. *)
Theorem C1_verify_from_scratch ctx s :
  wellFormed ctx = true →
  ∃ ok s',
    onVerify ctx s = (Returns ok, s') ∧
    (∀ i, i ∈ errors s' ↔
       ∃ f, f ∈ visibleFields ctx ∧ field_id f = i ∧
            unfilled ctx (formData s) f = true) ∧
    (∀ e, errors (onVerify ctx (withErrors e s)).2 = errors s') ∧
    (∀ i, nullishEntry (formData s) i = false → i ∉ errors s') ∧
    (ok = true ↔
       ∀ f, f ∈ visibleFields ctx → isRequired ctx f = true →
            nullishEntry (formData s) (field_id f) = false).
Proof.
  intros [Hcov Hids]%wellFormed_spec.
  destruct (onVerify_success_iff ctx s Hcov) as [E Hok].
  eexists _, _. split; [exact E|]. split; [|split; [|split]].
  - intros i. by apply onVerify_marked.
  - intros e. by rewrite !onVerify_errors.
  - intros i. apply onVerify_unmarked.
  - rewrite bool_decide_eq_true, Hok. split.
    + intros H f Hf Hr. apply H; [done|done|]. by apply Hids.
    + intros H f Hf Hr _. by apply H.
Qed.

Lemma C1_verify_from_scratch_witness :
  wellFormed (ctxAB true) = true ∧
  ∃ ok s',
    onVerify (ctxAB true) (mount (ctxAB true) ∅) = (Returns ok, s') ∧
    (∀ i, i ∈ errors s' ↔
       ∃ f, f ∈ visibleFields (ctxAB true) ∧ field_id f = i ∧
            unfilled (ctxAB true) (formData (mount (ctxAB true) ∅)) f = true) ∧
    (∀ e, errors (onVerify (ctxAB true)
                    (withErrors e (mount (ctxAB true) ∅))).2 = errors s') ∧
    (∀ i, nullishEntry (formData (mount (ctxAB true) ∅)) i = false →
          i ∉ errors s') ∧
    (ok = true ↔
       ∀ f, f ∈ visibleFields (ctxAB true) →
            isRequired (ctxAB true) f = true →
            nullishEntry (formData (mount (ctxAB true) ∅)) (field_id f) = false).
Proof.
  split; [reflexivity|].
  apply (C1_verify_from_scratch (ctxAB true) (mount (ctxAB true) ∅)).
  reflexivity.
Defined.

(** ** C2 *)

(** The id kept in [firstErrorFieldId] when [onVerify] returns [false],
    for any ids. *)
Lemma onVerify_focus ctx s s' :
  onVerify ctx s = (Returns false, s') →
  ∃ pre f post,
    visibleFields ctx = pre ++ f :: post ∧
    unfilled ctx (formData s) f = true ∧
    field_id f ≠ ""%string ∧
    (∀ g, g ∈ pre → unfilled ctx (formData s) g = true →
          field_id g = ""%string) ∧
    trace s' = trace s ++ [ScrollIntoView ("form-field-" +:+ field_id f)].
Proof.
  intros E. pose proof (onVerify_returns _ _ _ _ E) as Hcov.
  rewrite onVerify_spec in E by done. cbn zeta in E.
  fold (missingOf ctx (formData s) (visibleFields ctx)) in E.
  case_bool_decide as Hfirst; [discriminate|].
  destruct (firstNonEmpty_first ctx (formData s) _ Hfirst)
    as (pre & f & post & Hl & Hf & Hn & Hpre & Hid).
  exists pre, f, post. repeat split; try done.
  injection E as <-. simpl. by rewrite <- Hid.
Qed.

(** C2.  For a view that fits its fields, when [onVerify] returns [false]
    the element it scrolls to is that of the first visible field, in the
    order of [visibleFields], that is required and whose draft value is
    null or absent: no field before it in the list is such a field. *)
Theorem C2_focus_target ctx s s' :
  wellFormed ctx = true →
  onVerify ctx s = (Returns false, s') →
  ∃ pre f post,
    visibleFields ctx = pre ++ f :: post ∧
    unfilled ctx (formData s) f = true ∧
    (∀ g, g ∈ pre → unfilled ctx (formData s) g = false) ∧
    trace s' = trace s ++ [ScrollIntoView ("form-field-" +:+ field_id f)].
Proof.
  intros [Hcov Hids]%wellFormed_spec E.
  destruct (onVerify_focus ctx s s' E)
    as (pre & f & post & Hl & Hf & _ & Hpre & Htr).
  exists pre, f, post. repeat split; try done.
  intros g Hg. destruct (unfilled ctx (formData s) g) eqn:Hu; [|done].
  destruct (Hids g).
  - rewrite Hl. apply elem_of_app. by left.
  - by apply Hpre.
Qed.

Lemma C2_focus_target_witness :
  wellFormed (ctxAB true) = true ∧
  onVerify (ctxAB true) (mount (ctxAB true) ∅) =
    (Returns false,
     emit (ScrollIntoView "form-field-a")
       (withErrors {[ "a"%string ]} (mount (ctxAB true) ∅))) ∧
  ∃ pre f post,
    visibleFields (ctxAB true) = pre ++ f :: post ∧
    unfilled (ctxAB true) (formData (mount (ctxAB true) ∅)) f = true ∧
    (∀ g, g ∈ pre →
          unfilled (ctxAB true) (formData (mount (ctxAB true) ∅)) g = false) ∧
    trace (emit (ScrollIntoView "form-field-a")
             (withErrors {[ "a"%string ]} (mount (ctxAB true) ∅))) =
      trace (mount (ctxAB true) ∅) ++
        [ScrollIntoView ("form-field-" +:+ field_id f)].
Proof.
  split; [reflexivity|]. split; [reflexivity|].
  apply (C2_focus_target (ctxAB true) (mount (ctxAB true) ∅));
    reflexivity.
Defined.

(** ** C4 *)

(** C4.  When [onVerify] returns [false], [onSubmit] stops there: its only
    effect besides the new error set is the scroll to the failing field.
    The collaborator is not called, no timer and no continuation is
    created, and the busy flag, the draft and the persisted mapping are
    those of the state before. *)
Theorem C4_failed_verify_aborts ctx s s1 :
  onVerify ctx s = (Returns false, s1) →
  onSubmit ctx s = s1 ∧
  (∃ target, trace (onSubmit ctx s) = trace s ++ [ScrollIntoView target]) ∧
  loading (onSubmit ctx s) = loading s ∧
  formData (onSubmit ctx s) = formData s ∧
  formDataMap (onSubmit ctx s) = formDataMap s ∧
  timers (onSubmit ctx s) = timers s ∧
  awaiting (onSubmit ctx s) = awaiting s ∧
  step ctx s Click = (if loading s then s else s1).
Proof.
  intros E. pose proof (onVerify_returns _ _ _ _ E) as Hcov.
  assert (Es : onSubmit ctx s = s1) by (unfold onSubmit; by rewrite E).
  rewrite Es. split; [done|].
  rewrite onVerify_spec in E by done. cbn zeta in E.
  case_bool_decide; [discriminate|]. injection E as <-.
  repeat split; try done. by eexists.
  simpl. by rewrite Es.
Qed.

Lemma C4_failed_verify_aborts_witness :
  onVerify (ctxAB true) (mount (ctxAB true) ∅) =
    (Returns false,
     emit (ScrollIntoView "form-field-a")
       (withErrors {[ "a"%string ]} (mount (ctxAB true) ∅))) ∧
  loading (onSubmit (ctxAB true) (mount (ctxAB true) ∅)) = false ∧
  trace (onSubmit (ctxAB true) (mount (ctxAB true) ∅)) =
    [ScrollIntoView "form-field-a"].
Proof.
  split; [reflexivity|].
  pose proof (C4_failed_verify_aborts (ctxAB true) (mount (ctxAB true) ∅) _
                eq_refl) as (E & _ & Hl & _).
  split; [exact Hl|]. rewrite E. reflexivity.
Defined.

(** ** The edit handler, field by field *)

Lemma onChange_errors ctx fieldId v s :
  errors (onChange ctx fieldId v s) =
    if bool_decide (fieldId ∈ errors s) && negb (isNullish v)
       && negb (looseEqEmptyString v)
    then errors s ∖ {[ fieldId ]} else errors s.
Proof.
  unfold onChange.
  by destruct (bool_decide _ && _ && _), (isNullish v).
Qed.

Lemma onChange_formData ctx fieldId v s :
  formData (onChange ctx fieldId v s) =
    if isNullish v then delete fieldId (formData s)
    else <[fieldId := v]> (formData s).
Proof.
  unfold onChange.
  by destruct (bool_decide _ && _ && _), (isNullish v).
Qed.

Lemma onChange_timers ctx fieldId v s :
  timers (onChange ctx fieldId v s) =
    enqueue (now s + 0,
             if isNullish v then PersistOmit (capture s) fieldId
             else PersistSet (capture s) fieldId v) (timers s).
Proof.
  unfold onChange.
  by destruct (bool_decide _ && _ && _), (isNullish v).
Qed.

(** ** C7 *)

(** An edit of a flagged field to a value that is not [null] or
    [undefined] and does not compare equal to [''] under JavaScript's [!=]
    removes that field's id, and only that id, from the error set;
    [onChange] does not run [onVerify]. *)
Lemma onChange_clears_flag ctx s fieldId v :
  fieldId ∈ errors s →
  isNullish v = false →
  looseEqEmptyString v = false →
  errors (onChange ctx fieldId v s) = errors s ∖ {[ fieldId ]}.
Proof.
  intros Hin Hn He. rewrite onChange_errors.
  rewrite bool_decide_eq_true_2 by done. by rewrite Hn, He.
Qed.

(** C7 at the number [0].  After a failed submit the required field [a] is
    flagged.  Typing [0] into it, a value that is neither null nor empty
    and that [onVerify] accepts, leaves the flag set, whereas typing ["x"]
    removes it: the guard [value != ''] of line 50 compares loosely, and
    [0 == ''] holds. *)
Lemma C7_zero_keeps_flag :
  "a"%string ∈ errors (step (ctxAB true) (mount (ctxAB true) ∅) Click) ∧
  isNullish (VNum 0) = false ∧
  VNum 0 ≠ VStr "" ∧
  ("a"%string ∈
     errors (onChange (ctxAB true) "a" (VNum 0)
               (step (ctxAB true) (mount (ctxAB true) ∅) Click))) ∧
  ("a"%string ∉
     errors (onVerify (ctxAB true)
               (onChange (ctxAB true) "a" (VNum 0)
                  (step (ctxAB true) (mount (ctxAB true) ∅) Click))).2) ∧
  ("a"%string ∉
     errors (onChange (ctxAB true) "a" (VStr "x")
               (step (ctxAB true) (mount (ctxAB true) ∅) Click))).
Proof.
  repeat split; try done; vm_compute; set_solver.
Qed.

(** ** Invariants of the event loop *)

Lemma Forall_enqueue (P : nat * task → Prop) x q :
  P x → Forall P q → Forall P (enqueue x q).
Proof.
  intros Hx. induction 1 as [|y q Hy Hq IH]; simpl.
  - by constructor.
  - case_decide; repeat constructor; done.
Qed.

Lemma onVerify_unchanged ctx s :
  formDataMap (onVerify ctx s).2 = formDataMap s ∧
  initialMap (onVerify ctx s).2 = initialMap s ∧
  formData (onVerify ctx s).2 = formData s ∧
  loading (onVerify ctx s).2 = loading s ∧
  now (onVerify ctx s).2 = now s ∧
  timers (onVerify ctx s).2 = timers s ∧
  awaiting (onVerify ctx s).2 = awaiting s.
Proof.
  unfold onVerify. destruct (requiredFieldIds ctx) as [[|i ids]|]; try done.
  by case_bool_decide.
Qed.

Section invariant.
Context (ctx : context).
Context (PS : gmap string (gmap string value) → Prop).
Context (PD : gmap string value → Prop).
Hypothesis PS_insert : ∀ M d, PS M → PD d → PS (<[localKey ctx := d]> M).
Hypothesis PS_delete : ∀ M, PS M → PS (delete (localKey ctx) M).
Hypothesis PD_insert :
  ∀ d f v, PD d → isNullish v = false → PD (<[f := v]> d).
Hypothesis PD_delete : ∀ d f, PD d → PD (delete f d).

Lemma okState_onChange fieldId v s :
  okState PS PD s → okState PS PD (onChange ctx fieldId v s).
Proof.
  intros (HM & Hd & Hi & Ht & Hw). unfold onChange.
  destruct (isNullish v) eqn:Hv;
    destruct (bool_decide (fieldId ∈ errors s) && _ && _);
    repeat split; simpl; auto;
    apply Forall_enqueue; simpl; unfold okClosure; auto.
Qed.

Lemma okState_onVerify s :
  okState PS PD s → okState PS PD (onVerify ctx s).2.
Proof.
  intros (HM & Hd & Hi & Ht & Hw).
  destruct (onVerify_unchanged ctx s) as (E1 & E2 & E3 & _ & _ & E4 & E5).
  unfold okState. by rewrite E1, E2, E3, E4, E5.
Qed.

Lemma okState_onSubmit s :
  okState PS PD s → okState PS PD (onSubmit ctx s).
Proof.
  intros Hs. pose proof (okState_onVerify s Hs) as Hv.
  destruct Hs as (HM & Hd & Hi & Ht & Hw). unfold onSubmit.
  destruct (onVerify ctx s) as [[|[|]] s1]; simpl in *; try done.
  destruct Hv as (HM1 & Hd1 & Hi1 & Ht1 & Hw1).
  destruct (submit ctx); repeat split; simpl; auto.
  - apply Forall_app. split; [done|]. by repeat constructor.
  - apply Forall_enqueue; [|done]. by split.
Qed.

Lemma okState_runTask t s :
  okTask PS PD t → okState PS PD s → okState PS PD (runTask ctx t s).
Proof.
  intros Ht (HM & Hd & Hi & Hq & Hw).
  destruct t as [c f|c f v|c]; simpl in Ht.
  - destruct Ht as [Hc1 Hc2]. repeat split; simpl; auto.
  - destruct Ht as [[Hc1 Hc2] Hv]. repeat split; simpl; auto.
  - destruct Ht as [Hc1 Hc2]. repeat split; simpl; auto.
Qed.

Lemma okState_runTasks l s :
  Forall (λ x : nat * task, okTask PS PD x.2) l →
  okState PS PD s →
  okState PS PD (fold_left (λ a x, runTask ctx x.2 a) l s).
Proof.
  intros Hl. revert s. induction Hl as [|x l Hx Hl IH]; intros s Hs.
  - done.
  - simpl. apply IH. by apply okState_runTask.
Qed.

Lemma okState_elapse d s :
  okState PS PD s → okState PS PD (elapse ctx d s).
Proof.
  intros (HM & Hd & Hi & Hq & Hw). unfold elapse.
  match goal with
  | |- okState _ _ (withQueue _ _ _ ?a) =>
      assert (Ha : okState PS PD a); [|by destruct Ha as (?&?&?&?&?)]
  end.
  apply okState_runTasks.
  - apply Forall_forall. intros x [_ Hx]%list_elem_of_filter.
    by apply (proj1 (Forall_forall _ _) Hq).
  - repeat split; simpl; auto.
    apply Forall_forall. intros x [_ Hx]%list_elem_of_filter.
    by apply (proj1 (Forall_forall _ _) Hq).
Qed.

Lemma okState_step s e :
  okState PS PD s → okState PS PD (step ctx s e).
Proof.
  intros Hs. destruct e as [f v| | | |d]; simpl.
  - by apply okState_onChange.
  - destruct (loading s); [done|]. by apply okState_onSubmit.
  - destruct (awaiting s) as [|c w] eqn:Ew; [done|].
    destruct Hs as (HM & Hd & Hi & Hq & Hw). rewrite Ew in Hw.
    apply Forall_cons in Hw as [Hc Hw].
    repeat split; simpl; auto. by apply Forall_enqueue.
  - destruct Hs as (HM & Hd & Hi & Hq & Hw).
    repeat split; simpl; auto.
    destruct (awaiting s); [done|]. by apply Forall_cons in Hw as [_ Hw].
  - by apply okState_elapse.
Qed.

Lemma okState_run es s :
  okState PS PD s → okState PS PD (run ctx s es).
Proof.
  revert s. induction es as [|e es IH]; intros s Hs; [done|].
  simpl. apply IH. by apply okState_step.
Qed.

Lemma okState_mount M :
  PS M → PD (default ∅ (M !! localKey ctx)) → okState PS PD (mount ctx M).
Proof. intros HM Hd. repeat split; simpl; auto. Qed.

End invariant.

(** ** The timer queue *)

Lemma enqueue_sorted x q : sortedQueue q → sortedQueue (enqueue x q).
Proof.
  unfold sortedQueue. induction 1 as [|y q Hq IH Hy]; simpl.
  - repeat constructor.
  - case_decide as Hle.
    + constructor; [done|]. by apply Forall_enqueue.
    + constructor; [by constructor|]. constructor; [lia|].
      eapply Forall_impl; [exact Hy|]. simpl. intros z Hz. lia.
Qed.

Lemma filter_sorted (P : nat * task → Prop) `{!∀ x, Decision (P x)} q :
  sortedQueue q → sortedQueue (filter P q).
Proof.
  unfold sortedQueue. induction 1 as [|y q Hq IH Hy]; [constructor|].
  rewrite filter_cons. case_decide; [|done].
  constructor; [done|].
  apply Forall_forall. intros z [_ Hz]%list_elem_of_filter.
  by apply (proj1 (Forall_forall _ _) Hy).
Qed.

Lemma filter_due_later t (q : list (nat * task)) :
  Forall (λ z, t < z.1) q → filter (λ x, dueBy t x = true) q = [].
Proof.
  induction 1 as [|y q Hy Hq IH]; [done|].
  rewrite filter_cons, decide_False; [exact IH|].
  unfold dueBy. rewrite bool_decide_eq_true. lia.
Qed.

(** A timer with no delay fires after every timer that is due by now. *)
Lemma ready_enqueue t w q :
  sortedQueue q →
  filter (λ x, dueBy t x = true) (enqueue (t, w) q) =
    filter (λ x, dueBy t x = true) q ++ [(t, w)].
Proof.
  assert (Hw : filter (λ x, dueBy t x = true) [(t, w)] = [(t, w)]).
  { rewrite filter_cons, decide_True; [done|].
    unfold dueBy. by rewrite bool_decide_eq_true. }
  unfold sortedQueue. induction 1 as [|y q Hq IH Hy]; simpl.
  - exact Hw.
  - case_decide as Hle; simpl in Hle.
    + rewrite !filter_cons.
      rewrite !decide_True by (unfold dueBy; by rewrite bool_decide_eq_true).
      by rewrite IH.
    + change ((t, w) :: y :: q) with ([(t, w)] ++ y :: q).
      rewrite filter_app, Hw.
      rewrite (filter_due_later t (y :: q)); [done|].
      constructor; [lia|].
      eapply Forall_impl; [exact Hy|]. simpl. intros z Hz. lia.
Qed.

Lemma queue_runTasks ctx (l : list (nat * task)) s :
  timers (fold_left (λ a x, runTask ctx x.2 a) l s) = timers s ∧
  awaiting (fold_left (λ a x, runTask ctx x.2 a) l s) = awaiting s ∧
  now (fold_left (λ a x, runTask ctx x.2 a) l s) = now s.
Proof.
  revert s. induction l as [|[n t] l IH]; intros s; [done|].
  simpl. destruct (IH (runTask ctx t s)) as (-> & -> & ->).
  by destruct t.
Qed.

Lemma sorted_step ctx s e :
  sortedQueue (timers s) → sortedQueue (timers (step ctx s e)).
Proof.
  intros Hs. destruct e as [f v| | | |d]; simpl.
  - rewrite onChange_timers. by apply enqueue_sorted.
  - destruct (loading s); [done|]. unfold onSubmit.
    destruct (onVerify_unchanged ctx s) as (_ & _ & _ & _ & _ & E & _).
    destruct (onVerify ctx s) as [[|[|]] s1]; simpl in *;
      try (by rewrite E).
    destruct (submit ctx); simpl; rewrite E; [done|].
    by apply enqueue_sorted.
  - destruct (awaiting s); [done|]. simpl. by apply enqueue_sorted.
  - done.
  - unfold elapse. simpl.
    destruct (queue_runTasks ctx
                (filter (λ x, dueBy (now s + d) x = true) (timers s))
                (withQueue (now s)
                   (filter (λ x, dueBy (now s + d) x = false) (timers s))
                   (awaiting s) s)) as (-> & _).
    simpl. by apply filter_sorted.
Qed.

Lemma sorted_run ctx M es : sortedQueue (timers (run ctx (mount ctx M) es)).
Proof.
  assert (H : ∀ s, sortedQueue (timers s) →
                   sortedQueue (timers (run ctx s es))).
  { induction es as [|e es IH]; intros s Hs; [done|].
    simpl. apply IH. by apply sorted_step. }
  apply H. constructor.
Qed.

Lemma run_app ctx s es es' :
  run ctx s (es ++ es') = run ctx (run ctx s es) es'.
Proof. apply fold_left_app. Qed.

(** With the queue in firing order, an edit followed by the firing of the
    timers that are due leaves, as the durable entry of the session, the
    draft the edit produced. *)
Lemma deferred_write ctx s fieldId v :
  sortedQueue (timers s) →
  formDataMap (run ctx s [Change fieldId v; Elapse 0]) =
    <[localKey ctx := formData (onChange ctx fieldId v s)]> (formDataMap s).
Proof.
  intros Hs. cbn [run fold_left step]. unfold elapse.
  assert (En : now (onChange ctx fieldId v s) = now s).
  { unfold onChange.
    by destruct (bool_decide _ && _ && _), (isNullish v). }
  rewrite onChange_timers, En.
  rewrite ready_enqueue by done.
  rewrite fold_left_app. cbn [fold_left withQueue formDataMap snd].
  rewrite onChange_formData. by destruct (isNullish v).
Qed.

(** ** C8 *)

(** C8, as the code has it.  An edit to [null] (or [undefined]) deletes the
    field's key from the in-memory draft and leaves every other key as it
    was; it schedules one deferred write, and whenever that write runs the
    durable entry of the session has no key for the field, which is the
    case in a session once the timers due at the time of the edit have
    fired.  No edit puts a [null] or [undefined] into the in-memory draft:
    one found there after an edit was there before, under another field. *)
Theorem C8_null_edit_deletes_key ctx s fieldId v :
  isNullish v = true →
  formData (onChange ctx fieldId v s) = delete fieldId (formData s) ∧
  formData (onChange ctx fieldId v s) !! fieldId = None ∧
  timers (onChange ctx fieldId v s) =
    enqueue (now s + 0, PersistOmit (capture s) fieldId) (timers s) ∧
  (∀ a, ∃ d,
     formDataMap (runTask ctx (PersistOmit (capture s) fieldId) a)
       !! localKey ctx = Some d ∧ d !! fieldId = None) ∧
  (∀ M es, s = run ctx (mount ctx M) es →
     ∃ d, formDataMap (run ctx s [Change fieldId v; Elapse 0])
            !! localKey ctx = Some d ∧ d !! fieldId = None) ∧
  (∀ w g u, formData (onChange ctx fieldId w s) !! g = Some u →
            isNullish u = true →
            g ≠ fieldId ∧ formData s !! g = Some u).
Proof.
  intros Hv.
  split; [by rewrite onChange_formData, Hv|].
  split; [rewrite onChange_formData, Hv; apply lookup_delete_eq|].
  split; [by rewrite onChange_timers, Hv|].
  split; [|split].
  - intros a. eexists. split; [apply lookup_insert_eq|].
    apply lookup_delete_eq.
  - intros M es ->. eexists. split.
    + rewrite deferred_write by apply sorted_run. apply lookup_insert_eq.
    + rewrite onChange_formData, Hv. apply lookup_delete_eq.
  - intros w g u. rewrite onChange_formData.
    destruct (isNullish w) eqn:Hw.
    + rewrite lookup_delete. case_decide; [done|]. by intros ? _.
    + rewrite lookup_insert. case_decide as Hg.
      * intros [= <-] Hu. congruence.
      * by intros ? _.
Qed.

Lemma C8_null_edit_deletes_key_witness :
  isNullish VNull = true ∧
  formData (onChange (ctxAB true) "a" VNull
              (run (ctxAB true) (mount (ctxAB true) storeTwoFields) [])) =
    {[ "b"%string := VStr "y" ]} ∧
  formDataMap (run (ctxAB true) (mount (ctxAB true) storeTwoFields)
                 [Change "a" VNull; Elapse 0])
    !! "tbl1-viw1"%string = Some {[ "b"%string := VStr "y" ]}.
Proof.
  split; [reflexivity|]. split; [|reflexivity].
  pose proof (proj1 (C8_null_edit_deletes_key (ctxAB true)
                       (run (ctxAB true) (mount (ctxAB true) storeTwoFields)
                          []) "a" VNull eq_refl)) as E.
  etransitivity; [exact E|]. reflexivity.
Defined.

(** C8 as stated fails: the durable medium holds an explicit [null] for
    field [a] when the session mounts; the draft is hydrated with it, and
    the deferred write of the next edit, of field [b], writes it back. *)
Lemma C8_hydrated_null_is_written_back :
  formData (mount (ctxAB true) storeNullA) !! "a"%string = Some VNull ∧
  formDataMap
    (run (ctxAB true) (mount (ctxAB true) storeNullA)
       [Change "b" (VStr "y"); Elapse 0]) !! "tbl1-viw1"%string =
    Some {[ "a"%string := VNull; "b"%string := VStr "y" ]}.
Proof. split; reflexivity. Qed.

(** ** C9 *)

(** C9.  An edit of a flagged field takes the flag away exactly when the new
    value is neither null nor equal to [''], and never touches the flag of
    another field.  Typing the empty string into a flagged field keeps the
    flag, stores the empty string in the draft and schedules the write of
    the empty string to the durable entry, done once the timers due at the
    time of the edit have fired; the field then passes the null test of
    [onVerify], which leaves it unmarked. *)
Theorem C9_flag_kept_for_empty_value ctx s fieldId v :
  fieldId ∈ errors s →
  (fieldId ∉ errors (onChange ctx fieldId v s) ↔
     isNullish v = false ∧ looseEqEmptyString v = false) ∧
  (∀ g, g ≠ fieldId →
        (g ∈ errors (onChange ctx fieldId v s) ↔ g ∈ errors s)) ∧
  fieldId ∈ errors (onChange ctx fieldId (VStr "") s) ∧
  formData (onChange ctx fieldId (VStr "") s) !! fieldId = Some (VStr "") ∧
  timers (onChange ctx fieldId (VStr "") s) =
    enqueue (now s + 0, PersistSet (capture s) fieldId (VStr "")) (timers s) ∧
  (∀ a, formDataMap (runTask ctx (PersistSet (capture s) fieldId (VStr "")) a)
          !! localKey ctx = Some (<[fieldId := VStr ""]> (formData s))) ∧
  (∀ M es, s = run ctx (mount ctx M) es →
     formDataMap (run ctx s [Change fieldId (VStr ""); Elapse 0])
       !! localKey ctx = Some (<[fieldId := VStr ""]> (formData s))) ∧
  nullishEntry (formData (onChange ctx fieldId (VStr "") s)) fieldId = false ∧
  fieldId ∉ errors (onVerify ctx (onChange ctx fieldId (VStr "") s)).2.
Proof.
  intros Hin.
  assert (Hstored : formData (onChange ctx fieldId (VStr "") s) !! fieldId
                    = Some (VStr "")).
  { rewrite onChange_formData. simpl. apply lookup_insert_eq. }
  split; [|split; [|split; [|split; [|split; [|split; [|split; [|split]]]]]]].
  - rewrite onChange_errors, bool_decide_eq_true_2 by done.
    destruct (isNullish v), (looseEqEmptyString v); simpl;
      split; try done; try (by intros [? ?]); set_solver.
  - intros g Hg. rewrite onChange_errors.
    destruct (bool_decide _ && _ && _); set_solver.
  - rewrite onChange_errors. simpl. by rewrite andb_false_r.
  - exact Hstored.
  - by rewrite onChange_timers.
  - intros a. apply lookup_insert_eq.
  - intros M es ->. rewrite deferred_write by apply sorted_run.
    by rewrite onChange_formData, lookup_insert_eq.
  - unfold nullishEntry. by rewrite Hstored.
  - apply onVerify_unmarked. unfold nullishEntry. by rewrite Hstored.
Qed.

Lemma C9_flag_kept_for_empty_value_witness :
  "a"%string ∈ errors (step (ctxAB true) (mount (ctxAB true) ∅) Click) ∧
  "a"%string ∈
    errors (onChange (ctxAB true) "a" (VStr "")
              (step (ctxAB true) (mount (ctxAB true) ∅) Click)) ∧
  formData (onChange (ctxAB true) "a" (VStr "")
              (step (ctxAB true) (mount (ctxAB true) ∅) Click))
    !! "a"%string = Some (VStr "") ∧
  formDataMap (run (ctxAB true) (mount (ctxAB true) ∅)
                 [Click; Change "a" (VStr ""); Elapse 0])
    !! "tbl1-viw1"%string = Some {[ "a"%string := VStr "" ]} ∧
  (onVerify (ctxAB true)
     (run (ctxAB true) (mount (ctxAB true) ∅)
        [Click; Change "a" (VStr ""); Elapse 0])).1 = Returns true.
Proof.
  assert (H : "a"%string ∈
            errors (step (ctxAB true) (mount (ctxAB true) ∅) Click))
    by (vm_compute; set_solver).
  split; [exact H|].
  destruct (C9_flag_kept_for_empty_value (ctxAB true) _ "a" (VStr "") H)
    as (_ & _ & Hkept & Hdraft & _).
  split; [exact Hkept|]. split; [exact Hdraft|].
  split; reflexivity.
Defined.

(** ** C6 *)

Lemma ownEntry_lookup key M : ownEntry key M !! key = M !! key.
Proof.
  unfold ownEntry. destruct (M !! key) as [d|] eqn:E.
  - apply lookup_singleton_eq.
  - apply lookup_empty.
Qed.

Lemma ownEntry_insert key d M :
  ownEntry key (<[key := d]> M) = <[key := d]> (ownEntry key M).
Proof.
  unfold ownEntry. rewrite lookup_insert_eq.
  destruct (M !! key).
  - by rewrite insert_singleton_eq.
  - by rewrite insert_empty.
Qed.

Lemma ownEntry_delete key M :
  ownEntry key (delete key M) = delete key (ownEntry key M).
Proof.
  unfold ownEntry. rewrite lookup_delete_eq.
  destruct (M !! key).
  - by rewrite delete_singleton_eq.
  - by rewrite delete_empty.
Qed.

Lemma ownEntry_agree key M M' :
  M !! key = M' !! key → ownEntry key M = ownEntry key M'.
Proof. unfold ownEntry. by intros ->. Qed.

Lemma ownTimer_enqueue key x q :
  ownTimer key <$> enqueue x q = enqueue (ownTimer key x) (ownTimer key <$> q).
Proof.
  induction q as [|y q IH]; [done|]. simpl.
  case_decide; [|done]. rewrite fmap_cons. f_equal. exact IH.
Qed.

Lemma ownTimer_filter key t b (q : list (nat * task)) :
  ownTimer key <$> filter (λ x, dueBy t x = b) q =
    filter (λ x, dueBy t x = b) (ownTimer key <$> q).
Proof.
  induction q as [|y q IH]; [done|].
  rewrite fmap_cons, !filter_cons.
  change (dueBy t (ownTimer key y)) with (dueBy t y).
  destruct (decide (dueBy t y = b)); [|exact IH].
  rewrite fmap_cons. f_equal. exact IH.
Qed.

Section own.
Context (ctx : context).

Lemma ownState_mount M :
  ownState (localKey ctx) (mount ctx M) =
    mount ctx (ownEntry (localKey ctx) M).
Proof. unfold mount, ownState. simpl. by rewrite ownEntry_lookup. Qed.

Lemma ownState_onChange f v s :
  ownState (localKey ctx) (onChange ctx f v s) =
    onChange ctx f v (ownState (localKey ctx) s).
Proof.
  unfold onChange. simpl.
  destruct (bool_decide _ && _ && _), (isNullish v);
    unfold ownState; simpl; by rewrite ownTimer_enqueue.
Qed.

Lemma ownState_onVerify s :
  onVerify ctx (ownState (localKey ctx) s) =
    ((onVerify ctx s).1, ownState (localKey ctx) (onVerify ctx s).2).
Proof.
  unfold onVerify. simpl.
  destruct (requiredFieldIds ctx) as [[|i ids]|]; try done.
  by case_bool_decide.
Qed.

Lemma ownState_onSubmit s :
  ownState (localKey ctx) (onSubmit ctx s) = onSubmit ctx (ownState (localKey ctx) s).
Proof.
  unfold onSubmit. rewrite ownState_onVerify.
  destruct (onVerify ctx s) as [[|[|]] s1]; simpl; try done.
  destruct (submit ctx); unfold ownState; simpl.
  - by rewrite fmap_app.
  - by rewrite ownTimer_enqueue.
Qed.

Lemma ownState_runTask t s :
  ownState (localKey ctx) (runTask ctx t s) =
    runTask ctx (ownTask (localKey ctx) t) (ownState (localKey ctx) s).
Proof.
  destruct t as [c f|c f v|c]; unfold ownState; simpl.
  - by rewrite ownEntry_insert.
  - by rewrite ownEntry_insert.
  - by rewrite ownEntry_delete.
Qed.

Lemma ownState_runTasks l s :
  ownState (localKey ctx) (fold_left (λ a x, runTask ctx x.2 a) l s) =
    fold_left (λ a x, runTask ctx x.2 a) (ownTimer (localKey ctx) <$> l)
      (ownState (localKey ctx) s).
Proof.
  revert s. induction l as [|x l IH]; intros s; [done|].
  simpl. by rewrite IH, ownState_runTask.
Qed.

Lemma ownState_elapse d s :
  ownState (localKey ctx) (elapse ctx d s) = elapse ctx d (ownState (localKey ctx) s).
Proof.
  unfold elapse.
  change (timers (ownState (localKey ctx) s)) with (ownTimer (localKey ctx) <$> timers s).
  rewrite <- !ownTimer_filter.
  change (now (ownState (localKey ctx) s)) with (now s).
  match goal with
  | |- context [withQueue (now s) (ownTimer (localKey ctx) <$> ?q) ?w (ownState (localKey ctx) s)] =>
      change (withQueue (now s) (ownTimer (localKey ctx) <$> q) w (ownState (localKey ctx) s))
        with (ownState (localKey ctx) (withQueue (now s) q (awaiting s) s))
  end.
  rewrite <- ownState_runTasks. done.
Qed.

Lemma ownState_step s e :
  ownState (localKey ctx) (step ctx s e) = step ctx (ownState (localKey ctx) s) e.
Proof.
  destruct e as [f v| | | |d]; simpl.
  - apply ownState_onChange.
  - destruct (loading s); [done|]. apply ownState_onSubmit.
  - destruct (awaiting s) as [|c w]; [done|].
    unfold ownState; simpl. by rewrite ownTimer_enqueue.
  - destruct (awaiting s) as [|c w]; done.
  - apply ownState_elapse.
Qed.

Lemma ownState_run es s :
  ownState (localKey ctx) (run ctx s es) = run ctx (ownState (localKey ctx) s) es.
Proof.
  revert s. induction es as [|e es IH]; intros s; [done|].
  simpl. by rewrite IH, ownState_step.
Qed.

End own.

(** What a session shows and does depends on the persisted mapping only
    through the entry of its own key. *)
Lemma run_own_entry ctx M M' es :
  M !! localKey ctx = M' !! localKey ctx →
  ownState (localKey ctx) (run ctx (mount ctx M) es) =
  ownState (localKey ctx) (run ctx (mount ctx M') es).
Proof.
  intros HM. rewrite !ownState_run, !ownState_mount.
  by rewrite (ownEntry_agree _ M M').
Qed.

(** The entry of another key is the same in the persisted mapping of every
    state a session reaches, and in every mapping it is about to write. *)
Lemma run_other_entry ctx M k es :
  k ≠ localKey ctx →
  okState (λ X, X !! k = M !! k) (λ _, True) (run ctx (mount ctx M) es).
Proof.
  intros Hk. apply okState_run; try done.
  - intros X d HX _. by rewrite lookup_insert_ne.
  - intros X HX. by rewrite lookup_delete_ne.
Qed.

(** C6.  Let [k] be a key other than the session's own.  The write scheduled
    by an edit and the reset leave the entry of [k] as the handler's render
    saw it, and after any sequence of events of the session the entry of
    [k] in the persisted mapping is the one the session was mounted with.
    In the other direction, two persisted mappings that agree on the
    session's own key give, for the same events, the same draft, error set,
    busy flag, effects and own durable entry: nothing of another key's
    entry is read. *)
Theorem C6_other_entries_untouched ctx M M' k es s fieldId v a :
  k ≠ localKey ctx →
  M !! localKey ctx = M' !! localKey ctx →
  formDataMap (runTask ctx (PersistSet (capture s) fieldId v) a) !! k
    = formDataMap s !! k ∧
  formDataMap (runTask ctx (PersistOmit (capture s) fieldId) a) !! k
    = formDataMap s !! k ∧
  formDataMap (onReset ctx (capture s) s) !! k = formDataMap s !! k ∧
  formDataMap (run ctx (mount ctx M) es) !! k = M !! k ∧
  formData (run ctx (mount ctx M) es) = formData (run ctx (mount ctx M') es) ∧
  errors (run ctx (mount ctx M) es) = errors (run ctx (mount ctx M') es) ∧
  loading (run ctx (mount ctx M) es) = loading (run ctx (mount ctx M') es) ∧
  trace (run ctx (mount ctx M) es) = trace (run ctx (mount ctx M') es) ∧
  formDataMap (run ctx (mount ctx M) es) !! localKey ctx
    = formDataMap (run ctx (mount ctx M') es) !! localKey ctx.
Proof.
  intros Hk HM.
  pose proof (run_own_entry ctx M M' es HM) as Hown.
  split; [simpl; by rewrite lookup_insert_ne|].
  split; [simpl; by rewrite lookup_insert_ne|].
  split; [simpl; by rewrite lookup_delete_ne|].
  split; [by destruct (run_other_entry ctx M k es Hk) as (? & _)|].
  split; [exact (f_equal formData Hown)|].
  split; [exact (f_equal errors Hown)|].
  split; [exact (f_equal loading Hown)|].
  split; [exact (f_equal trace Hown)|].
  rewrite <- (ownEntry_lookup _ (formDataMap (run ctx (mount ctx M) es))).
  rewrite <- (ownEntry_lookup _ (formDataMap (run ctx (mount ctx M') es))).
  exact (f_equal (λ x, formDataMap x !! localKey ctx) Hown).
Qed.

Lemma C6_other_entries_untouched_witness :
  "tbl2-viw2"%string ≠ localKey (ctxAB true) ∧
  storeTwo !! localKey (ctxAB true) = storeAX !! localKey (ctxAB true) ∧
  formDataMap
    (run (ctxAB true) (mount (ctxAB true) storeTwo)
       [Change "b" (VStr "y"); Elapse 0; Click; Settle; Elapse 1000])
    !! "tbl2-viw2"%string = Some {[ "c"%string := VNum 7 ]} ∧
  formDataMap
    (run (ctxAB true) (mount (ctxAB true) storeTwo)
       [Change "b" (VStr "y"); Elapse 0; Click; Settle; Elapse 1000])
    !! "tbl1-viw1"%string = None ∧
  trace
    (run (ctxAB true) (mount (ctxAB true) storeTwo)
       [Change "b" (VStr "y"); Elapse 0; Click; Settle; Elapse 1000]) =
  trace
    (run (ctxAB true) (mount (ctxAB true) storeAX)
       [Change "b" (VStr "y"); Elapse 0; Click; Settle; Elapse 1000]).
Proof.
  assert (Hk : "tbl2-viw2"%string ≠ localKey (ctxAB true)) by discriminate.
  assert (HM : storeTwo !! localKey (ctxAB true)
               = storeAX !! localKey (ctxAB true)) by reflexivity.
  split; [exact Hk|]. split; [exact HM|].
  destruct (C6_other_entries_untouched (ctxAB true) storeTwo storeAX
              "tbl2-viw2"
              [Change "b" (VStr "y"); Elapse 0; Click; Settle; Elapse 1000]
              (mount (ctxAB true) storeTwo) "b" (VStr "y")
              (mount (ctxAB true) storeTwo) Hk HM)
    as (_ & _ & _ & H & _ & _ & _ & Htr & _).
  split; [rewrite H; reflexivity|]. split; [reflexivity|]. exact Htr.
Defined.

(** ** Reset and the submit cycle (C3, C10) *)

(** [onReset] puts the draft back to the map [useMap] was created with, not
    to the empty map; the durable entry of the session is removed and the
    busy flag cleared.  It calls nothing. *)
Lemma onReset_effect ctx c s :
  formData (onReset ctx c s) = initialMap s ∧
  formDataMap (onReset ctx c s) !! localKey ctx = None ∧
  loading (onReset ctx c s) = false ∧
  errors (onReset ctx c s) = errors s ∧
  trace (onReset ctx c s) = trace s ∧
  timers (onReset ctx c s) = timers s ∧
  awaiting (onReset ctx c s) = awaiting s.
Proof. repeat split. simpl. apply lookup_delete_eq. Qed.

Lemma initialMap_runTasks ctx (l : list (nat * task)) s :
  initialMap (fold_left (λ a x, runTask ctx x.2 a) l s) = initialMap s.
Proof.
  revert s. induction l as [|[n t] l IH]; intros s; [done|].
  simpl. rewrite IH. by destruct t.
Qed.

Lemma initialMap_step ctx s e : initialMap (step ctx s e) = initialMap s.
Proof.
  destruct e as [f v| | | |d]; simpl.
  - unfold onChange. by destruct (bool_decide _ && _ && _), (isNullish v).
  - destruct (loading s); [done|]. unfold onSubmit.
    destruct (onVerify_unchanged ctx s) as (_ & E & _).
    destruct (onVerify ctx s) as [[|[|]] s1]; simpl in *; try done.
    by destruct (submit ctx).
  - by destruct (awaiting s).
  - done.
  - unfold elapse. simpl. by rewrite initialMap_runTasks.
Qed.

(** The map [reset] goes back to is fixed when the component mounts: it is
    the draft found in the durable medium at that time. *)
Lemma initialMap_run ctx M es :
  initialMap (run ctx (mount ctx M) es) = default ∅ (M !! localKey ctx).
Proof.
  assert (H : ∀ s, initialMap (run ctx s es) = initialMap s).
  { induction es as [|e es IH]; intros s; [done|].
    simpl. by rewrite IH, initialMap_step. }
  by rewrite H.
Qed.

(** In a session mounted without a persisted draft, a reset empties the
    draft. *)
Lemma onReset_fresh_session ctx M es c :
  M !! localKey ctx = None →
  formData (onReset ctx c (run ctx (mount ctx M) es)) = ∅.
Proof.
  intros HM. destruct (onReset_effect ctx c (run ctx (mount ctx M) es))
    as (-> & _). by rewrite initialMap_run, HM.
Qed.

(** [onSubmit] after a successful [onVerify]. *)
Lemma onSubmit_verified ctx s s1 :
  onVerify ctx s = (Returns true, s1) →
  onSubmit ctx s =
    if submit ctx
    then suspend (capture s)
           (emit (SubmitCall (formData s)) (setLoading true s1))
    else setTimeout (ResetNotify (capture s)) submitTimeout
           (setLoading true s1).
Proof. intros E. unfold onSubmit. by rewrite E. Qed.

(** The callback of the delayed reset, run on any state. *)
Lemma resetNotify_effect ctx c a :
  formData (runTask ctx (ResetNotify c) a) = initialMap a ∧
  formDataMap (runTask ctx (ResetNotify c) a) !! localKey ctx = None ∧
  loading (runTask ctx (ResetNotify c) a) = false ∧
  trace (runTask ctx (ResetNotify c) a) =
    trace a ++ [ScrollToTop; Toast "actions.submitSucceed" 2000].
Proof.
  repeat split.
  - simpl. apply lookup_delete_eq.
  - simpl. by rewrite <- app_assoc.
Qed.

(** Two states with the same components are the same state. *)
Lemma state_eq (s t : state) :
  formDataMap s = formDataMap t → initialMap s = initialMap t →
  formData s = formData t → errors s = errors t → loading s = loading t →
  now s = now t → timers s = timers t → awaiting s = awaiting t →
  trace s = trace t → s = t.
Proof. destruct s, t. simpl. by intros -> -> -> -> -> -> -> -> ->. Qed.

Lemma onVerify_true ctx s s1 :
  onVerify ctx s = (Returns true, s1) → s1 = withErrors (errors s1) s.
Proof.
  unfold onVerify. destruct (requiredFieldIds ctx) as [[|i ids]|].
  - by intros [= <-].
  - case_bool_decide; [by intros [= <-] | discriminate].
  - discriminate.
Qed.

Lemma elapse_single ctx d t s :
  timers s = [(now s + d, t)] →
  elapse ctx d s =
    withQueue (now s + d) [] (awaiting s)
      (runTask ctx t (withQueue (now s) [] (awaiting s) s)).
Proof.
  intros Hq. unfold elapse. rewrite Hq, !filter_cons, !filter_nil.
  unfold dueBy. cbn [fst snd].
  rewrite bool_decide_eq_true_2 by done.
  rewrite decide_True by done. rewrite decide_False by done.
  cbn [fold_left]. by destruct t.
Qed.

(** The whole cycle from a state at rest (nothing scheduled, nothing in
    flight): click, the collaborator's promise resolves when there is one,
    and the delay elapses. *)
Lemma submit_cycle ctx s s1 :
  onVerify ctx s = (Returns true, s1) →
  loading s = false → timers s = [] → awaiting s = [] →
  loading (step ctx s Click) = true ∧
  trace (step ctx s Click) =
    trace s ++ (if submit ctx then [SubmitCall (formData s)] else []) ∧
  run ctx s ((if submit ctx then [Click; Settle] else [Click])
             ++ [Elapse submitTimeout]) =
    {| formDataMap := delete (localKey ctx) (formDataMap s);
       initialMap := initialMap s;
       formData := initialMap s;
       errors := errors s1;
       loading := false;
       now := now s + submitTimeout;
       timers := []; awaiting := [];
       trace := trace s
                ++ (if submit ctx then [SubmitCall (formData s)] else [])
                ++ [ScrollToTop; Toast "actions.submitSucceed" 2000] |}.
Proof.
  intros E Hl Hq Hw. pose proof (onVerify_true _ _ _ E) as Es1.
  pose proof (onSubmit_verified _ _ _ E) as Esub.
  cbn [step]. rewrite Hl, Esub.
  destruct (onVerify_unchanged ctx s) as (EM & Ei & Ed & _ & En & Et & Ea).
  rewrite E in EM, Ei, Ed, En, Et, Ea. cbn [snd] in *.
  assert (Etr : trace s1 = trace s) by (by rewrite Es1).
  destruct (submit ctx); cbn [app run fold_left step]; rewrite Hl, Esub.
  - split; [done|]. split; [cbn; by rewrite Etr|].
    cbn [suspend awaiting emit setLoading]. rewrite Ea, Hw.
    cbn [app resumeSubmit].
    rewrite (elapse_single _ _ (ResetNotify (capture s)))
      by (cbn; by rewrite Et, Hq).
    apply state_eq; cbn;
      rewrite ?Ei, ?En, ?Etr, ?Ea, ?Hw, <- ?app_assoc; done.
  - split; [done|]. split; [cbn; by rewrite Etr, app_nil_r|].
    rewrite (elapse_single _ _ (ResetNotify (capture s)))
      by (cbn; by rewrite Et, Hq, En).
    apply state_eq; cbn;
      rewrite ?Ei, ?En, ?Etr, ?Ea, ?Hw, <- ?app_assoc; done.
Qed.

(** ** C3 *)

(** C3 at a session mounted on a persisted draft [{a: "x"}].  [onVerify]
    succeeds, the click sets the busy flag and calls the collaborator once
    with the draft; after the promise resolves and the delay elapses the
    durable entry is gone, the busy flag is cleared and the notification is
    emitted, but the in-memory draft is [{a: "x"}] again, not empty. *)
Lemma C3_submit_restores_hydrated_draft :
  (onVerify (ctxAB true) (mount (ctxAB true) storeAX)).1 = Returns true ∧
  loading (step (ctxAB true) (mount (ctxAB true) storeAX) Click) = true ∧
  trace (step (ctxAB true) (mount (ctxAB true) storeAX) Click) =
    [SubmitCall {[ "a"%string := VStr "x" ]}] ∧
  formDataMap
    (run (ctxAB true) (mount (ctxAB true) storeAX)
       [Click; Settle; Elapse 1000]) !! "tbl1-viw1"%string = None ∧
  loading
    (run (ctxAB true) (mount (ctxAB true) storeAX)
       [Click; Settle; Elapse 1000]) = false ∧
  trace
    (run (ctxAB true) (mount (ctxAB true) storeAX)
       [Click; Settle; Elapse 1000]) =
    [SubmitCall {[ "a"%string := VStr "x" ]}; ScrollToTop;
     Toast "actions.submitSucceed" 2000] ∧
  formData
    (run (ctxAB true) (mount (ctxAB true) storeAX)
       [Click; Settle; Elapse 1000]) = {[ "a"%string := VStr "x" ]} ∧
  formData
    (run (ctxAB true) (mount (ctxAB true) storeAX)
       [Click; Settle; Elapse 1000]) !! "a"%string = Some (VStr "x").
Proof. repeat split; reflexivity. Qed.

(** The scenario of a draft typed during the session: mounted on an empty
    medium, the cycle ends with an empty draft. *)
Lemma submit_typed_draft :
  run (ctxAB true) (mount (ctxAB true) ∅)
    [Change "a" (VStr "x"); Elapse 0; Click; Settle; Elapse 1000] =
  {| formDataMap := ∅; initialMap := ∅; formData := ∅; errors := ∅;
     loading := false; now := 1000; timers := []; awaiting := [];
     trace := [SubmitCall {[ "a"%string := VStr "x" ]}; ScrollToTop;
               Toast "actions.submitSucceed" 2000] |}.
Proof. reflexivity. Qed.

(** ** C10 *)

(** C10 at a session mounted on a persisted draft [{a: "x"}], without a
    [submit] prop: the click sets the busy flag and calls nothing; after the
    delay the durable entry is gone, the busy flag is cleared and the
    notification is emitted, but the in-memory draft is [{a: "x"}] again. *)
Lemma C10_no_collaborator_restores_hydrated_draft :
  submit (ctxAB false) = false ∧
  (onVerify (ctxAB false) (mount (ctxAB false) storeAX)).1 = Returns true ∧
  loading (step (ctxAB false) (mount (ctxAB false) storeAX) Click) = true ∧
  trace (step (ctxAB false) (mount (ctxAB false) storeAX) Click) = [] ∧
  formDataMap
    (run (ctxAB false) (mount (ctxAB false) storeAX) [Click; Elapse 1000])
    !! "tbl1-viw1"%string = None ∧
  loading
    (run (ctxAB false) (mount (ctxAB false) storeAX) [Click; Elapse 1000])
    = false ∧
  trace
    (run (ctxAB false) (mount (ctxAB false) storeAX) [Click; Elapse 1000]) =
    [ScrollToTop; Toast "actions.submitSucceed" 2000] ∧
  formData
    (run (ctxAB false) (mount (ctxAB false) storeAX) [Click; Elapse 1000]) =
    {[ "a"%string := VStr "x" ]}.
Proof. repeat split; reflexivity. Qed.

(** * Further properties *)

(** ** The validation pass *)

Lemma filter_none {A} (P : A → Prop) `{!∀ x, Decision (P x)} (l : list A) :
  (∀ x, x ∈ l → ¬ P x) → filter P l = [].
Proof.
  induction l as [|x l IH]; intros Hl; [done|].
  rewrite filter_cons, decide_False by (apply Hl; by left).
  apply IH. intros y Hy. apply Hl. by right.
Qed.

(** X1.  When no visible field is required, in particular when there is no
    visible field, [onVerify] returns [true] and leaves an empty error set
    and no effect, whatever the draft and the flags set before. *)
Theorem X1_verify_nothing_required ctx s :
  hasColumnMeta ctx = true →
  (∀ f, f ∈ visibleFields ctx → isRequired ctx f = false) →
  onVerify ctx s = (Returns true, withErrors ∅ s).
Proof.
  intros Hcov Hnone. unfold onVerify.
  rewrite requiredFieldIds_spec, Hcov.
  assert (E : requiredIds ctx = []).
  { unfold requiredIds. rewrite filter_none; [done|].
    intros f Hf. by rewrite (Hnone f Hf). }
  by rewrite E.
Qed.

Lemma X1_verify_nothing_required_witness :
  hasColumnMeta ctxOptional = true ∧
  onVerify ctxOptional
    (withErrors {[ "b"%string ]} (mount ctxOptional ∅)) =
    (Returns true, mount ctxOptional ∅).
Proof.
  split; [reflexivity|].
  apply (X1_verify_nothing_required ctxOptional
           (withErrors {[ "b"%string ]} (mount ctxOptional ∅)));
    [reflexivity|].
  intros f Hf. apply list_elem_of_In in Hf. simpl in Hf.
  destruct Hf as [<-|[]]. reflexivity.
Defined.

(** X2.  [onVerify] is a read-only pass over the draft: whatever it returns,
    the draft, the persisted mapping, the busy flag, the timers and the
    pending continuations are those of the state before.  Its only effect
    is the scroll request, made exactly when it returns [false]. *)
Theorem X2_verify_reads_only ctx s :
  formData (onVerify ctx s).2 = formData s ∧
  formDataMap (onVerify ctx s).2 = formDataMap s ∧
  initialMap (onVerify ctx s).2 = initialMap s ∧
  loading (onVerify ctx s).2 = loading s ∧
  timers (onVerify ctx s).2 = timers s ∧
  awaiting (onVerify ctx s).2 = awaiting s ∧
  ((onVerify ctx s).1 ≠ Returns false →
     trace (onVerify ctx s).2 = trace s) ∧
  ((onVerify ctx s).1 = Returns false →
     ∃ i, i ∈ errors (onVerify ctx s).2 ∧
          trace (onVerify ctx s).2 =
            trace s ++ [ScrollIntoView ("form-field-" +:+ i)]).
Proof.
  destruct (onVerify_unchanged ctx s) as (E1 & E2 & E3 & E4 & _ & E5 & E6).
  repeat (split; [done|]).
  destruct (hasColumnMeta ctx) eqn:Hcov.
  - rewrite onVerify_spec by done. cbn zeta.
    case_bool_decide as Hf; simpl; split; try done.
    intros _. exists (firstNonEmpty (missing (formData s) (requiredIds ctx))).
    split; [|done]. apply elem_of_list_to_set.
    revert Hf. generalize (missing (formData s) (requiredIds ctx)).
    intros l. induction l as [|i l IH]; [done|].
    rewrite firstNonEmpty_cons. case_bool_decide as Hi.
    + intros Hl. right. by apply IH.
    + intros _. by left.
  - rewrite onVerify_throws by done. simpl. split; done.
Qed.

Lemma onVerify_outcome ctx s :
  hasColumnMeta ctx = true →
  (onVerify ctx s).1 =
    Returns (bool_decide
               (firstNonEmpty (missing (formData s) (requiredIds ctx))
                = ""%string)).
Proof.
  intros Hcov. rewrite onVerify_spec by done. cbn zeta.
  by case_bool_decide.
Qed.

(** X3.  Verifying twice in a row changes nothing: the second pass returns
    what the first returned and leaves the same error set. *)
Theorem X3_verify_idempotent ctx s :
  (onVerify ctx (onVerify ctx s).2).1 = (onVerify ctx s).1 ∧
  errors (onVerify ctx (onVerify ctx s).2).2 = errors (onVerify ctx s).2.
Proof.
  destruct (onVerify_unchanged ctx s) as (_ & _ & Ed & _).
  destruct (hasColumnMeta ctx) eqn:Hcov.
  - rewrite !onVerify_outcome, !onVerify_errors by done. by rewrite Ed.
  - by rewrite !onVerify_throws.
Qed.

(** X4.  When the view lacks the column metadata of a visible field,
    [onVerify] throws before looking at the draft: the error set has been
    emptied and nothing else has happened; [onSubmit] then stops without
    calling the collaborator, setting the busy flag or scheduling the reset,
    however complete the draft is. *)
Theorem X4_missing_column_meta ctx s :
  hasColumnMeta ctx = false →
  onVerify ctx s = (Throws, withErrors ∅ s) ∧
  onSubmit ctx s = withErrors ∅ s.
Proof.
  intros Hcov. pose proof (onVerify_throws ctx s Hcov) as E.
  split; [exact E|]. unfold onSubmit. by rewrite E.
Qed.

Lemma X4_missing_column_meta_witness :
  hasColumnMeta ctxNoMeta = false ∧
  onSubmit ctxNoMeta (mount ctxNoMeta storeTwoFields) =
    mount ctxNoMeta storeTwoFields.
Proof.
  split; [reflexivity|].
  exact (proj2 (X4_missing_column_meta ctxNoMeta
                  (mount ctxNoMeta storeTwoFields) eq_refl)).
Defined.

(** X5.  Provided no required visible field has the empty string as id,
    [onVerify] returns [true] exactly when it leaves the error set empty. *)
Theorem X5_verify_outcome_matches_flags ctx s :
  hasColumnMeta ctx = true →
  (∀ f, f ∈ visibleFields ctx → isRequired ctx f = true →
        field_id f ≠ ""%string) →
  (onVerify ctx s).1 = Returns true ↔ errors (onVerify ctx s).2 = ∅.
Proof.
  intros Hcov Hids.
  rewrite onVerify_errors, onVerify_outcome by done.
  change (missing (formData s) (requiredIds ctx))
    with (missingOf ctx (formData s) (visibleFields ctx)).
  assert (Hne : ∀ i, i ∈ missingOf ctx (formData s) (visibleFields ctx) →
                     i ≠ ""%string).
  { intros i (f & Hf & <- & Hu)%elem_of_missingOf.
    apply andb_true_iff in Hu as [Hr _]. by apply Hids. }
  destruct (missingOf ctx (formData s) (visibleFields ctx)) as [|i l] eqn:E.
  - done.
  - assert (Hi : i ≠ ""%string) by (apply Hne; by left).
    rewrite firstNonEmpty_cons.
    rewrite (bool_decide_eq_false_2 (i = ""%string)) by done.
    rewrite bool_decide_eq_false_2 by done.
    split; [done|]. intros Hs.
    assert (Hin : i ∈ (∅ : gset string)) by (rewrite <- Hs; set_solver).
    set_solver.
Qed.

Lemma X5_verify_outcome_matches_flags_witness :
  hasColumnMeta (ctxAB true) = true ∧
  ((onVerify (ctxAB true) (mount (ctxAB true) storeAX)).1 = Returns true ↔
   errors (onVerify (ctxAB true) (mount (ctxAB true) storeAX)).2 = ∅).
Proof.
  split; [reflexivity|].
  apply (X5_verify_outcome_matches_flags (ctxAB true)); [reflexivity|].
  intros f Hf _. apply list_elem_of_In in Hf. simpl in Hf.
  destruct Hf as [<-|[<-|[]]]; discriminate.
Defined.

(** ** Edits *)

(** X6.  What is typed is what is shown: after an edit of field [f] the
    value handed to its [FormField] is the new value, [null] when the edit
    was to [null] or [undefined]; the value shown for any other field is
    the one shown before. *)
Theorem X6_edit_is_shown ctx s f v g :
  shownValue (onChange ctx f v s) g =
    if decide (g = f) then (if isNullish v then VNull else v)
    else shownValue s g.
Proof.
  unfold shownValue. rewrite onChange_formData.
  destruct (isNullish v) eqn:Hv; case_decide as Hg.
  - subst g. by rewrite lookup_delete_eq.
  - by rewrite lookup_delete_ne.
  - subst g. by rewrite lookup_insert_eq, Hv.
  - by rewrite lookup_insert_ne.
Qed.

(** X7.  Edits compose as assignments: of two edits of the same field the
    later one decides the draft, and edits of two different fields give the
    same draft and the same error set in either order. *)
Theorem X7_edits_compose ctx s f g v w :
  f ≠ g →
  formData (onChange ctx f w (onChange ctx f v s)) =
    formData (onChange ctx f w s) ∧
  formData (onChange ctx f v (onChange ctx g w s)) =
    formData (onChange ctx g w (onChange ctx f v s)) ∧
  errors (onChange ctx f v (onChange ctx g w s)) =
    errors (onChange ctx g w (onChange ctx f v s)).
Proof.
  intros Hfg. split; [|split].
  - rewrite !onChange_formData.
    destruct (isNullish v), (isNullish w).
    + by rewrite delete_delete_eq.
    + by rewrite insert_delete_eq.
    + by rewrite delete_insert_eq.
    + by rewrite insert_insert_eq.
  - rewrite !onChange_formData.
    destruct (isNullish v), (isNullish w).
    + apply delete_delete.
    + by rewrite delete_insert_ne.
    + by rewrite delete_insert_ne.
    + by apply insert_insert_ne.
  - rewrite !onChange_errors.
    destruct (isNullish v), (looseEqEmptyString v),
      (isNullish w), (looseEqEmptyString w); simpl;
      rewrite ?andb_false_r, ?andb_true_r; try done;
      repeat case_bool_decide; set_solver.
Qed.

Lemma X7_edits_compose_witness :
  "a"%string ≠ "b"%string ∧
  formData (run (ctxAB true) (mount (ctxAB true) ∅)
              [Change "a" (VStr "x"); Change "b" (VNum 3)]) =
  formData (run (ctxAB true) (mount (ctxAB true) ∅)
              [Change "b" (VNum 3); Change "a" (VStr "x")]).
Proof.
  assert (H : "a"%string ≠ "b"%string) by discriminate.
  split; [exact H|].
  exact (eq_sym (proj1 (proj2 (X7_edits_compose (ctxAB true)
           (mount (ctxAB true) ∅) "a" "b" (VStr "x") (VNum 3) H)))).
Defined.

(** ** Accounting for submissions *)

Lemma pendingResets_enqueue x q :
  pendingResets (enqueue x q) = pendingResets (x :: q).
Proof.
  unfold pendingResets. induction q as [|y q IH]; [done|]. simpl.
  case_decide; [|done].
  rewrite (filter_cons _ y), (filter_cons _ x), (filter_cons _ y).
  rewrite (filter_cons _ x) in IH.
  destruct (decide (isReset y = true)), (decide (isReset x = true));
    simpl in *; lia.
Qed.

Lemma pendingResets_cons x q :
  pendingResets (x :: q) = (if isReset x then 1 else 0) + pendingResets q.
Proof.
  unfold pendingResets. rewrite filter_cons.
  destruct (decide (isReset x = true)) as [E|E].
  - by rewrite E.
  - apply not_true_is_false in E. by rewrite E.
Qed.

Lemma pendingResets_split t q :
  pendingResets q =
    pendingResets (filter (λ x, dueBy t x = true) q) +
    pendingResets (filter (λ x, dueBy t x = false) q).
Proof.
  induction q as [|y q IH]; [done|].
  rewrite !(filter_cons _ y). destruct (dueBy t y) eqn:Hy.
  - rewrite decide_True, decide_False by done.
    rewrite !pendingResets_cons. lia.
  - rewrite decide_False, decide_True by done.
    rewrite !pendingResets_cons. lia.
Qed.

Lemma submitCalls_app tr tr' :
  submitCalls (tr ++ tr') = submitCalls tr ++ submitCalls tr'.
Proof. apply omap_app. Qed.

Lemma toastCount_app tr tr' :
  toastCount (tr ++ tr') = toastCount tr + toastCount tr'.
Proof. unfold toastCount. by rewrite filter_app, length_app. Qed.

(** What firing a batch of timers does to the busy flag, the draft and the
    effects: only the delayed resets count. *)
Lemma runTasks_effect ctx (l : list (nat * task)) s :
  loading (fold_left (λ a x, runTask ctx x.2 a) l s) =
    (if decide (pendingResets l = 0) then loading s else false) ∧
  formData (fold_left (λ a x, runTask ctx x.2 a) l s) =
    (if decide (pendingResets l = 0) then formData s else initialMap s) ∧
  errors (fold_left (λ a x, runTask ctx x.2 a) l s) = errors s ∧
  submitCalls (trace (fold_left (λ a x, runTask ctx x.2 a) l s)) =
    submitCalls (trace s) ∧
  toastCount (trace (fold_left (λ a x, runTask ctx x.2 a) l s)) =
    toastCount (trace s) + pendingResets l.
Proof.
  revert s. induction l as [|[n t] l IH]; intros s.
  - simpl. repeat split; done.
  - cbn [fold_left snd].
    destruct (IH (runTask ctx t s)) as (-> & -> & -> & -> & ->).
    rewrite pendingResets_cons. unfold isReset. cbn [snd].
    destruct t as [c f|c f v|c]; cbn [Nat.add].
    + repeat split; done.
    + repeat split; done.
    + rewrite (decide_False (P := S _ = 0)) by lia.
      simpl. rewrite !submitCalls_app, !toastCount_app. simpl.
      rewrite !app_nil_r.
      change (toastCount [ScrollToTop]) with 0.
      change (toastCount [Toast "actions.submitSucceed" 2000]) with 1.
      repeat split; try done; try lia;
        by destruct (decide (pendingResets l = 0)).
Qed.

Lemma onVerify_trace_counts ctx s :
  submitCalls (trace (onVerify ctx s).2) = submitCalls (trace s) ∧
  toastCount (trace (onVerify ctx s).2) = toastCount (trace s).
Proof.
  unfold onVerify. destruct (requiredFieldIds ctx) as [[|i ids]|]; try done.
  case_bool_decide; [done|]. simpl.
  rewrite submitCalls_app, toastCount_app. simpl.
  by rewrite app_nil_r, Nat.add_0_r.
Qed.

(** At most one submission is under way, and none when the form is not
    busy. *)
Lemma inFlight_step ctx s e :
  inFlight s ≤ (if loading s then 1 else 0) →
  inFlight (step ctx s e) ≤ (if loading (step ctx s e) then 1 else 0).
Proof.
  unfold inFlight. intros Hs. destruct e as [f v| | | |d]; simpl.
  - rewrite onChange_timers, pendingResets_enqueue, pendingResets_cons.
    assert (El : loading (onChange ctx f v s) = loading s).
    { unfold onChange.
      by destruct (bool_decide _ && _ && _), (isNullish v). }
    assert (Ea : awaiting (onChange ctx f v s) = awaiting s).
    { unfold onChange.
      by destruct (bool_decide _ && _ && _), (isNullish v). }
    rewrite El, Ea. unfold isReset. by destruct (isNullish v).
  - destruct (loading s) eqn:Hl; [by rewrite Hl|].
    unfold onSubmit.
    destruct (onVerify_unchanged ctx s) as (_ & _ & _ & El & _ & Et & Ea).
    destruct (onVerify ctx s) as [[|[|]] s1]; simpl in *;
      try (by rewrite El, Et, Ea, Hl).
    destruct (submit ctx); simpl; rewrite ?Et, ?Ea.
    + rewrite length_app. simpl. lia.
    + rewrite pendingResets_enqueue, pendingResets_cons. simpl. lia.
  - destruct (awaiting s) as [|c w] eqn:Ew; [by rewrite Ew|].
    simpl in *. rewrite pendingResets_enqueue, pendingResets_cons.
    simpl. lia.
  - destruct (awaiting s) as [|c w]; simpl in *; lia.
  - unfold elapse. simpl.
    destruct (queue_runTasks ctx
                (filter (λ x, dueBy (now s + d) x = true) (timers s))
                (withQueue (now s)
                   (filter (λ x, dueBy (now s + d) x = false) (timers s))
                   (awaiting s) s)) as (-> & -> & _).
    destruct (runTasks_effect ctx
                (filter (λ x, dueBy (now s + d) x = true) (timers s))
                (withQueue (now s)
                   (filter (λ x, dueBy (now s + d) x = false) (timers s))
                   (awaiting s) s)) as (-> & _).
    simpl. rewrite (pendingResets_split (now s + d) (timers s)) in Hs.
    case_decide; destruct (loading s); lia.
Qed.

Lemma inFlight_run ctx M es :
  inFlight (run ctx (mount ctx M) es) ≤
    (if loading (run ctx (mount ctx M) es) then 1 else 0).
Proof.
  assert (H : ∀ s, inFlight s ≤ (if loading s then 1 else 0) →
                   inFlight (run ctx s es) ≤
                     (if loading (run ctx s es) then 1 else 0)).
  { induction es as [|e es IH]; intros s Hs; [done|].
    simpl. apply IH. by apply inFlight_step. }
  apply H. unfold inFlight, pendingResets. simpl. lia.
Qed.

Lemma onChange_others ctx f v s :
  formDataMap (onChange ctx f v s) = formDataMap s ∧
  initialMap (onChange ctx f v s) = initialMap s ∧
  loading (onChange ctx f v s) = loading s ∧
  now (onChange ctx f v s) = now s ∧
  awaiting (onChange ctx f v s) = awaiting s ∧
  trace (onChange ctx f v s) = trace s.
Proof.
  unfold onChange. by destruct (bool_decide _ && _ && _), (isNullish v).
Qed.

(** ** Submissions *)

(** X10.  A second click on the submit button while the first submission is
    under way does nothing: the state is that after the first click, and
    the collaborator, when there is one, has been called once. *)
Theorem X10_second_click_ignored ctx s s1 :
  onVerify ctx s = (Returns true, s1) →
  loading s = false →
  run ctx s [Click; Click] = run ctx s [Click] ∧
  submitCalls (trace (run ctx s [Click; Click])) =
    submitCalls (trace s) ++ (if submit ctx then [formData s] else []).
Proof.
  intros E Hl.
  pose proof (onSubmit_verified _ _ _ E) as Es.
  destruct (onVerify_trace_counts ctx s) as (Ec & _). rewrite E in Ec.
  simpl in Ec.
  assert (E1 : step ctx s Click = onSubmit ctx s) by (simpl; by rewrite Hl).
  assert (L : loading (onSubmit ctx s) = true).
  { rewrite Es. by destruct (submit ctx). }
  change (run ctx s [Click; Click])
    with (step ctx (step ctx s Click) Click).
  change (run ctx s [Click]) with (step ctx s Click).
  rewrite E1. change (step ctx (onSubmit ctx s) Click)
    with (if loading (onSubmit ctx s) then onSubmit ctx s
          else onSubmit ctx (onSubmit ctx s)).
  rewrite L. split; [done|]. rewrite Es.
  destruct (submit ctx); simpl.
  - by rewrite submitCalls_app, Ec.
  - by rewrite Ec, app_nil_r.
Qed.

Lemma X10_second_click_ignored_witness :
  onVerify (ctxAB true) (mount (ctxAB true) storeAX) =
    (Returns true, mount (ctxAB true) storeAX) ∧
  loading (mount (ctxAB true) storeAX) = false ∧
  submitCalls
    (trace (run (ctxAB true) (mount (ctxAB true) storeAX) [Click; Click])) =
    [{[ "a"%string := VStr "x" ]}].
Proof.
  split; [reflexivity|]. split; [reflexivity|].
  exact (proj2 (X10_second_click_ignored (ctxAB true)
                  (mount (ctxAB true) storeAX) _ eq_refl eq_refl)).
Defined.

(** X11.  At most one submission is under way at any time, and none while
    the form is not busy: in every state a session reaches, the suspended
    continuations and the delayed resets still to fire number at most one,
    and there is none of either when the busy flag is off. *)
Theorem X11_one_submission_in_flight ctx M es :
  inFlight (run ctx (mount ctx M) es) ≤ 1 ∧
  (loading (run ctx (mount ctx M) es) = false →
   awaiting (run ctx (mount ctx M) es) = [] ∧
   pendingResets (timers (run ctx (mount ctx M) es)) = 0).
Proof.
  pose proof (inFlight_run ctx M es) as H. unfold inFlight in *.
  split.
  - destruct (loading _); lia.
  - intros Hl. rewrite Hl in H. split; [|lia].
    destruct (awaiting _); [done|]. simpl in H. lia.
Qed.

(** Once the promise of [submit] has rejected, nothing is left to clear the
    busy flag. *)
Lemma stuck_step ctx s e :
  loading s = true → awaiting s = [] → pendingResets (timers s) = 0 →
  loading (step ctx s e) = true ∧
  awaiting (step ctx s e) = [] ∧
  pendingResets (timers (step ctx s e)) = 0 ∧
  submitCalls (trace (step ctx s e)) = submitCalls (trace s) ∧
  toastCount (trace (step ctx s e)) = toastCount (trace s).
Proof.
  intros Hl Ha Hp. destruct e as [f v| | | |d]; simpl.
  - destruct (onChange_others ctx f v s) as (_ & _ & -> & _ & -> & ->).
    rewrite onChange_timers, pendingResets_enqueue, pendingResets_cons.
    unfold isReset. by destruct (isNullish v).
  - by rewrite Hl.
  - by rewrite Ha.
  - by rewrite Ha.
  - unfold elapse. simpl.
    destruct (queue_runTasks ctx
                (filter (λ x, dueBy (now s + d) x = true) (timers s))
                (withQueue (now s)
                   (filter (λ x, dueBy (now s + d) x = false) (timers s))
                   (awaiting s) s)) as (-> & -> & _).
    destruct (runTasks_effect ctx
                (filter (λ x, dueBy (now s + d) x = true) (timers s))
                (withQueue (now s)
                   (filter (λ x, dueBy (now s + d) x = false) (timers s))
                   (awaiting s) s)) as (-> & _ & _ & -> & ->).
    simpl. rewrite (pendingResets_split (now s + d)) in Hp.
    rewrite decide_True by lia. repeat split; try done; lia.
Qed.

Lemma stuck_run ctx s es :
  loading s = true → awaiting s = [] → pendingResets (timers s) = 0 →
  loading (run ctx s es) = true ∧
  submitCalls (trace (run ctx s es)) = submitCalls (trace s) ∧
  toastCount (trace (run ctx s es)) = toastCount (trace s).
Proof.
  revert s. induction es as [|e es IH]; intros s Hl Ha Hp; [done|].
  destruct (stuck_step ctx s e Hl Ha Hp) as (Hl' & Ha' & Hp' & Ec & Et).
  simpl. destruct (IH _ Hl' Ha' Hp') as (-> & -> & ->). by rewrite Ec, Et.
Qed.

(** X12.  A rejected submission leaves the form busy for good.  When the
    promise of [submit] rejects, no reset is scheduled: whatever happens
    next (edits, clicks, time passing), the busy flag stays on, the submit
    button stays disabled, so the collaborator is never called again, and
    no success notification is emitted. *)
Theorem X12_rejected_submit_stays_busy ctx M es0 s1 es :
  submit ctx = true →
  loading (run ctx (mount ctx M) es0) = false →
  onVerify ctx (run ctx (mount ctx M) es0) = (Returns true, s1) →
  loading (run ctx (mount ctx M) (es0 ++ [Click; Reject] ++ es)) = true ∧
  submitCalls
    (trace (run ctx (mount ctx M) (es0 ++ [Click; Reject] ++ es))) =
    submitCalls (trace (run ctx (mount ctx M) es0))
      ++ [formData (run ctx (mount ctx M) es0)] ∧
  toastCount (trace (run ctx (mount ctx M) (es0 ++ [Click; Reject] ++ es))) =
    toastCount (trace (run ctx (mount ctx M) es0)).
Proof.
  intros Hsub Hl E.
  pose proof (inFlight_run ctx M es0) as H0. rewrite Hl in H0.
  unfold inFlight in H0.
  assert (Hp : pendingResets (timers (run ctx (mount ctx M) es0)) = 0)
    by lia.
  assert (Ha : awaiting (run ctx (mount ctx M) es0) = []).
  { destruct (awaiting _); [done|]. simpl in H0. lia. }
  clear H0.
  rewrite !run_app. set (s := run ctx (mount ctx M) es0) in *.
  destruct (onVerify_unchanged ctx s) as (_ & _ & _ & _ & _ & Et & Ew).
  destruct (onVerify_trace_counts ctx s) as (Ec & Etc).
  rewrite E in Et, Ew, Ec, Etc. simpl in Et, Ew, Ec, Etc.
  assert (Es : run ctx s [Click; Reject] =
               withQueue (now s1) (timers s1) []
                 (emit (SubmitCall (formData s)) (setLoading true s1))).
  { change (run ctx s [Click; Reject])
      with (step ctx (step ctx s Click) Reject).
    assert (E1 : step ctx s Click = onSubmit ctx s)
      by (simpl; by rewrite Hl).
    rewrite E1, (onSubmit_verified _ _ _ E), Hsub. cbn [step].
    cbn [suspend awaiting emit setLoading timers now].
    by rewrite Ew, Ha. }
  destruct (stuck_run ctx (run ctx s [Click; Reject]) es)
    as (-> & -> & ->); rewrite ?Es; simpl; try done.
  - by rewrite Et.
  - rewrite submitCalls_app, toastCount_app, Ec, Etc. simpl.
    split; [done|]. split; [done|]. unfold toastCount. simpl. lia.
Qed.

Lemma X12_rejected_submit_stays_busy_witness :
  submit (ctxAB true) = true ∧
  loading (run (ctxAB true) (mount (ctxAB true) storeAX) []) = false ∧
  loading
    (run (ctxAB true) (mount (ctxAB true) storeAX)
       ([] ++ [Click; Reject]
           ++ [Elapse 5000; Click; Change "b" (VStr "y"); Settle; Click]))
    = true.
Proof.
  split; [reflexivity|]. split; [reflexivity|].
  exact (proj1 (X12_rejected_submit_stays_busy (ctxAB true) storeAX [] _
                  [Elapse 5000; Click; Change "b" (VStr "y"); Settle; Click]
                  eq_refl eq_refl eq_refl)).
Defined.

Lemma onVerify_true_complete ctx s s1 :
  onVerify ctx s = (Returns true, s1) → complete ctx (formData s).
Proof.
  intros E. pose proof (onVerify_returns _ _ _ _ E) as Hcov.
  pose proof (onVerify_outcome ctx s Hcov) as Ho. rewrite E in Ho.
  simpl in Ho. injection Ho as Ho. symmetry in Ho.
  apply bool_decide_eq_true in Ho.
  change (missing (formData s) (requiredIds ctx))
    with (missingOf ctx (formData s) (visibleFields ctx)) in Ho.
  intros f Hf Hr Hn. destruct (nullishEntry _ _) eqn:En; [|done].
  destruct Hn.
  apply (proj1 (firstNonEmpty_empty _) Ho).
  apply elem_of_missingOf. exists f. unfold unfilled. by rewrite Hr, En.
Qed.

Lemma submitted_complete_step ctx s e :
  Forall (complete ctx) (submitCalls (trace s)) →
  Forall (complete ctx) (submitCalls (trace (step ctx s e))).
Proof.
  intros Hs. destruct e as [f v| | | |d]; simpl.
  - by destruct (onChange_others ctx f v s) as (_ & _ & _ & _ & _ & ->).
  - destruct (loading s); [done|]. unfold onSubmit.
    destruct (onVerify_trace_counts ctx s) as (Ec & _).
    destruct (onVerify ctx s) as [[|[|]] s1] eqn:E; simpl in *;
      try (by rewrite Ec).
    destruct (submit ctx); simpl; [|by rewrite Ec].
    rewrite submitCalls_app, Ec. apply Forall_app. split; [done|].
    repeat constructor. by apply (onVerify_true_complete _ _ _ E).
  - by destruct (awaiting s).
  - done.
  - unfold elapse. simpl.
    by destruct (runTasks_effect ctx
                (filter (λ x, dueBy (now s + d) x = true) (timers s))
                (withQueue (now s)
                   (filter (λ x, dueBy (now s + d) x = false) (timers s))
                   (awaiting s) s)) as (_ & _ & _ & -> & _).
Qed.

(** X13.  An incomplete form is never submitted: every draft the
    collaborator is called with, in any session, has a non-null value for
    every required visible field (of non-empty id). *)
Theorem X13_only_complete_drafts_submitted ctx M es d :
  d ∈ submitCalls (trace (run ctx (mount ctx M) es)) →
  complete ctx d.
Proof.
  assert (H : ∀ s, Forall (complete ctx) (submitCalls (trace s)) →
                   Forall (complete ctx) (submitCalls (trace (run ctx s es)))).
  { induction es as [|e es IH]; intros s Hs; [done|].
    simpl. apply IH. by apply submitted_complete_step. }
  intros Hd. specialize (H (mount ctx M) (Forall_nil_2 _)).
  by apply (proj1 (Forall_forall _ _) H).
Qed.

Lemma X13_only_complete_drafts_submitted_witness :
  ({[ "a"%string := VStr "x" ]} : gmap string value) ∈
    submitCalls (trace (run (ctxAB true) (mount (ctxAB true) ∅)
                          [Click; Change "a" (VStr "x"); Click])) ∧
  complete (ctxAB true) {[ "a"%string := VStr "x" ]}.
Proof.
  assert (H : ({[ "a"%string := VStr "x" ]} : gmap string value) ∈
    submitCalls (trace (run (ctxAB true) (mount (ctxAB true) ∅)
                          [Click; Change "a" (VStr "x"); Click]))).
  { apply list_elem_of_In. vm_compute. by left. }
  split; [exact H|].
  exact (X13_only_complete_drafts_submitted (ctxAB true) ∅ _ _ H).
Defined.

Lemma notified_step ctx s e :
  submit ctx = true →
  toastCount (trace s) + inFlight s ≤ length (submitCalls (trace s)) →
  toastCount (trace (step ctx s e)) + inFlight (step ctx s e) ≤
    length (submitCalls (trace (step ctx s e))).
Proof.
  unfold inFlight. intros Hsub Hs. destruct e as [f v| | | |d]; simpl.
  - destruct (onChange_others ctx f v s) as (_ & _ & _ & _ & -> & ->).
    rewrite onChange_timers, pendingResets_enqueue, pendingResets_cons.
    unfold isReset. by destruct (isNullish v).
  - destruct (loading s); [done|]. unfold onSubmit.
    destruct (onVerify_unchanged ctx s) as (_ & _ & _ & _ & _ & Et & Ea).
    destruct (onVerify_trace_counts ctx s) as (Ec & Etc).
    destruct (onVerify ctx s) as [[|[|]] s1]; simpl in *;
      try (by rewrite Et, Ea, Ec, Etc).
    rewrite Hsub. simpl.
    rewrite submitCalls_app, toastCount_app, !length_app, Et, Ea, Ec, Etc.
    change (toastCount [SubmitCall (formData s)]) with 0. simpl. lia.
  - destruct (awaiting s) as [|c w] eqn:Ew; [by rewrite Ew|].
    simpl in *. rewrite pendingResets_enqueue, pendingResets_cons.
    simpl. lia.
  - destruct (awaiting s) as [|c w]; simpl in *; lia.
  - unfold elapse. simpl.
    destruct (queue_runTasks ctx
                (filter (λ x, dueBy (now s + d) x = true) (timers s))
                (withQueue (now s)
                   (filter (λ x, dueBy (now s + d) x = false) (timers s))
                   (awaiting s) s)) as (-> & -> & _).
    destruct (runTasks_effect ctx
                (filter (λ x, dueBy (now s + d) x = true) (timers s))
                (withQueue (now s)
                   (filter (λ x, dueBy (now s + d) x = false) (timers s))
                   (awaiting s) s)) as (_ & _ & _ & -> & ->).
    simpl. rewrite (pendingResets_split (now s + d) (timers s)) in Hs. lia.
Qed.

(** X14.  When a collaborator is supplied, success is never announced
    without a call to it: in every state a session reaches, the success
    notifications emitted so far, plus the submissions still under way, are
    no more than the calls made to the collaborator. *)
Theorem X14_no_toast_without_call ctx M es :
  submit ctx = true →
  toastCount (trace (run ctx (mount ctx M) es))
    + inFlight (run ctx (mount ctx M) es)
    ≤ length (submitCalls (trace (run ctx (mount ctx M) es))).
Proof.
  intros Hsub.
  assert (H : ∀ s,
    toastCount (trace s) + inFlight s ≤ length (submitCalls (trace s)) →
    toastCount (trace (run ctx s es)) + inFlight (run ctx s es) ≤
      length (submitCalls (trace (run ctx s es)))).
  { induction es as [|e es IH]; intros s Hs; [done|].
    simpl. apply IH. by apply notified_step. }
  apply H. done.
Qed.

Lemma X14_no_toast_without_call_witness :
  submit (ctxAB true) = true ∧
  toastCount
    (trace (run (ctxAB true) (mount (ctxAB true) storeAX)
              [Click; Settle; Elapse 1000])) = 1 ∧
  1 ≤ length
        (submitCalls
           (trace (run (ctxAB true) (mount (ctxAB true) storeAX)
                     [Click; Settle; Elapse 1000]))).
Proof.
  split; [reflexivity|].
  assert (E : toastCount
    (trace (run (ctxAB true) (mount (ctxAB true) storeAX)
              [Click; Settle; Elapse 1000])) = 1) by reflexivity.
  split; [exact E|].
  pose proof (X14_no_toast_without_call (ctxAB true) storeAX
                [Click; Settle; Elapse 1000] eq_refl) as H.
  rewrite E in H. lia.
Defined.

(** ** Flags *)

Lemma onSubmit_errors ctx s :
  errors (onSubmit ctx s) = errors (onVerify ctx s).2.
Proof.
  unfold onSubmit. destruct (onVerify ctx s) as [[|[|]] s1]; try done.
  by destruct (submit ctx).
Qed.

Lemma flagged_required_step ctx s e i :
  (∀ j, j ∈ errors s →
        ∃ f, f ∈ visibleFields ctx ∧ field_id f = j ∧
             isRequired ctx f = true) →
  i ∈ errors (step ctx s e) →
  ∃ f, f ∈ visibleFields ctx ∧ field_id f = i ∧ isRequired ctx f = true.
Proof.
  intros Hs. destruct e as [f v| | | |d]; simpl.
  - rewrite onChange_errors. intros Hi. apply Hs.
    destruct (bool_decide _ && _ && _); set_solver.
  - destruct (loading s); [apply Hs|]. rewrite onSubmit_errors.
    destruct (hasColumnMeta ctx) eqn:Hcov.
    + rewrite onVerify_marked by done. intros (f & Hf & E & Hu).
      exists f. apply andb_true_iff in Hu as [Hr _]. done.
    + rewrite onVerify_throws by done. simpl. set_solver.
  - destruct (awaiting s); apply Hs.
  - apply Hs.
  - unfold elapse. simpl.
    destruct (runTasks_effect ctx
                (filter (λ x, dueBy (now s + d) x = true) (timers s))
                (withQueue (now s)
                   (filter (λ x, dueBy (now s + d) x = false) (timers s))
                   (awaiting s) s)) as (_ & _ & -> & _).
    apply Hs.
Qed.

(** X15.  Only required visible fields are ever flagged: in every state a
    session reaches, each id in the error set is the id of a field that is
    neither computed nor a lookup and that the view requires. *)
Theorem X15_only_required_fields_flagged ctx M es i :
  i ∈ errors (run ctx (mount ctx M) es) →
  ∃ f, f ∈ fields ctx ∧ field_id f = i ∧
       isComputed f = false ∧ isLookup f = false ∧
       isRequired ctx f = true.
Proof.
  assert (H : ∀ s,
    (∀ j, j ∈ errors s →
          ∃ f, f ∈ visibleFields ctx ∧ field_id f = j ∧
               isRequired ctx f = true) →
    ∀ j, j ∈ errors (run ctx s es) →
         ∃ f, f ∈ visibleFields ctx ∧ field_id f = j ∧
              isRequired ctx f = true).
  { induction es as [|e es IH]; intros s Hs; [done|].
    simpl. apply IH. intros j. by apply flagged_required_step. }
  intros Hi. destruct (H (mount ctx M)) with (j := i)
    as (f & Hf & E & Hr); [set_solver|done|].
  exists f. unfold visibleFields in Hf.
  apply list_elem_of_filter in Hf as [Hv Hf].
  apply andb_true_iff in Hv as [Hc Hlk].
  apply negb_true_iff in Hc, Hlk. done.
Qed.

Lemma X15_only_required_fields_flagged_witness :
  "a"%string ∈ errors (run (ctxAB true) (mount (ctxAB true) ∅) [Click]) ∧
  ∃ f, f ∈ fields (ctxAB true) ∧ field_id f = "a"%string ∧
       isComputed f = false ∧ isLookup f = false ∧
       isRequired (ctxAB true) f = true.
Proof.
  assert (H : "a"%string ∈
            errors (run (ctxAB true) (mount (ctxAB true) ∅) [Click]))
    by (vm_compute; set_solver).
  split; [exact H|].
  exact (X15_only_required_fields_flagged (ctxAB true) ∅ [Click] "a" H).
Defined.

(** ** The delayed reset *)

(** X16.  When the delayed reset fires, the draft in memory becomes the
    draft the session found in the durable medium when it mounted (the
    empty draft when there was none), the busy flag is cleared, one
    success notification is emitted, and the error set is left as it was. *)
Theorem X16_fired_reset ctx M es d :
  pendingResets
    (filter (λ x, dueBy (now (run ctx (mount ctx M) es) + d) x = true)
       (timers (run ctx (mount ctx M) es))) ≠ 0 →
  formData (run ctx (mount ctx M) (es ++ [Elapse d])) =
    default ∅ (M !! localKey ctx) ∧
  loading (run ctx (mount ctx M) (es ++ [Elapse d])) = false ∧
  toastCount (trace (run ctx (mount ctx M) (es ++ [Elapse d]))) =
    toastCount (trace (run ctx (mount ctx M) es)) + 1 ∧
  errors (run ctx (mount ctx M) (es ++ [Elapse d])) =
    errors (run ctx (mount ctx M) es).
Proof.
  intros Hp. rewrite run_app.
  pose proof (inFlight_run ctx M es) as Hin.
  pose proof (initialMap_run ctx M es) as Hi.
  set (s := run ctx (mount ctx M) es) in *.
  assert (H1 : pendingResets
                 (filter (λ x, dueBy (now s + d) x = true) (timers s)) = 1).
  { unfold inFlight in Hin.
    rewrite (pendingResets_split (now s + d)) in Hin.
    destruct (loading s); lia. }
  cbn [run fold_left step]. unfold elapse. cbn [formData loading trace
    errors withQueue].
  destruct (runTasks_effect ctx
              (filter (λ x, dueBy (now s + d) x = true) (timers s))
              (withQueue (now s)
                 (filter (λ x, dueBy (now s + d) x = false) (timers s))
                 (awaiting s) s)) as (-> & -> & -> & _ & ->).
  rewrite decide_False by done. rewrite H1. simpl. by rewrite Hi.
Qed.

Lemma X16_fired_reset_witness :
  pendingResets
    (filter
       (λ x, dueBy (now (run (ctxAB true) (mount (ctxAB true) storeAX)
                           [Change "b" (VStr "y"); Click; Settle]) + 1000) x
             = true)
       (timers (run (ctxAB true) (mount (ctxAB true) storeAX)
                  [Change "b" (VStr "y"); Click; Settle]))) ≠ 0 ∧
  formData (run (ctxAB true) (mount (ctxAB true) storeAX)
              ([Change "b" (VStr "y"); Click; Settle] ++ [Elapse 1000])) =
    {[ "a"%string := VStr "x" ]}.
Proof.
  assert (H : pendingResets
    (filter
       (λ x, dueBy (now (run (ctxAB true) (mount (ctxAB true) storeAX)
                           [Change "b" (VStr "y"); Click; Settle]) + 1000) x
             = true)
       (timers (run (ctxAB true) (mount (ctxAB true) storeAX)
                  [Change "b" (VStr "y"); Click; Settle]))) ≠ 0)
    by (vm_compute; discriminate).
  split; [exact H|].
  exact (proj1 (X16_fired_reset (ctxAB true) storeAX
                  [Change "b" (VStr "y"); Click; Settle] 1000 H)).
Defined.

(** ** Rendering *)

Lemma shownValue_defined s i : shownValue s i ≠ VUndefined.
Proof.
  unfold shownValue. destruct (formData s !! i) as [v|]; [|done].
  by destruct v.
Qed.

(** X17.  Without a view the component renders nothing.  With a view and no
    visible field it renders neither fields nor a submit button, so nothing
    can be submitted.  Otherwise it renders one [FormField] per visible
    field, in the order of the fields and skipping computed and lookup
    fields, each with the value of the draft for that field, which is never
    [undefined]; the submit button is disabled, and shows the spinner,
    exactly while the form is busy. *)
Theorem X17_render_body t ctx v s :
  render t ctx None s = None ∧
  ∃ r, render t ctx (Some v) s = Some r ∧
    r_inert r = loading s ∧
    (visibleFields ctx = [] → r_body r = None) ∧
    (visibleFields ctx ≠ [] →
     ∃ ffs btn,
       r_body r = Some (ffs, btn) ∧
       ff_field <$> ffs = visibleFields ctx ∧
       (∀ p, p ∈ ffs →
             ff_key p = field_id (ff_field p) ∧
             isComputed (ff_field p) = false ∧
             isLookup (ff_field p) = false ∧
             ff_value p = shownValue s (ff_key p) ∧
             ff_value p ≠ VUndefined ∧
             ff_errors p = errors s) ∧
       btn_disabled btn = loading s ∧
       btn_spinner btn = loading s).
Proof.
  split; [done|]. eexists. split; [reflexivity|]. cbn [r_inert r_body].
  split; [done|]. split.
  - by intros ->.
  - intros Hne. destruct (visibleFields ctx) as [|f0 vf] eqn:E; [done|].
    eexists _, _. split; [reflexivity|]. split; [|split; [|done]].
    + rewrite <- list_fmap_compose. apply list_fmap_id.
    + intros p (f & -> & Hf)%list_elem_of_fmap. cbn.
      rewrite <- E in Hf. unfold visibleFields in Hf.
      apply list_elem_of_filter in Hf as [Hv Hf].
      apply andb_true_iff in Hv as [Hc Hlk].
      apply negb_true_iff in Hc, Hlk.
      repeat split; try done. apply shownValue_defined.
Qed.

(** X18.  The label of the submit button is never empty when the
    translation of the default label is not: a missing or empty
    [submitLabel] falls back to it.  The title has no such fallback for the
    empty string: a view name that is present is shown as it is, even
    empty, and the translation of [untitled] is used only when the name is
    absent. *)
Theorem X18_button_label_not_empty t ctx v s r ffs btn :
  t "common:actions.submit"%string ≠ ""%string →
  render t ctx (Some v) s = Some r →
  r_body r = Some (ffs, btn) →
  btn_label btn ≠ ""%string ∧
  (∀ l, (submitLabel <$> view_options v) = Some (Some l) →
        l ≠ ""%string → btn_label btn = l) ∧
  (∀ n, view_name v = Some n → r_title r = n) ∧
  (view_name v = None → r_title r = t "untitled"%string).
Proof.
  intros Ht [= <-]. cbn [r_body r_title].
  destruct (visibleFields ctx) as [|f0 vf]; [done|].
  intros [= <- <-]. cbn [btn_label].
  assert (Htitle : (∀ n, view_name v = Some n →
                         default (t "untitled"%string) (view_name v) = n) ∧
                   (view_name v = None →
                    default (t "untitled"%string) (view_name v)
                    = t "untitled"%string)).
  { split; [intros n ->|intros ->]; done. }
  destruct Htitle as [Hn1 Hn2].
  destruct (view_options v) as [[c lg [l|]]|]; cbn.
  - case_bool_decide as Hl; cbn.
    + subst l. repeat split; try done. by intros l [= <-].
    + repeat split; try done. by intros l' [= <-].
  - repeat split; done.
  - repeat split; done.
Qed.

Lemma X18_button_label_not_empty_witness :
  (λ k : string, k) "common:actions.submit"%string ≠ ""%string ∧
  ∃ r ffs btn,
    render (λ k, k) (ctxAB true) (Some viewBlank) (mount (ctxAB true) ∅)
      = Some r ∧
    r_body r = Some (ffs, btn) ∧
    btn_label btn = "common:actions.submit"%string ∧
    btn_label btn ≠ ""%string ∧
    r_title r = ""%string.
Proof.
  assert (H : (λ k : string, k) "common:actions.submit"%string ≠ ""%string)
    by discriminate.
  split; [exact H|]. eexists _, _, _.
  split; [reflexivity|]. split; [reflexivity|]. split; [reflexivity|].
  split; [|reflexivity].
  exact (proj1 (X18_button_label_not_empty (λ k, k) (ctxAB true) viewBlank
                  (mount (ctxAB true) ∅) _ _ _ H eq_refl eq_refl)).
Defined.

(** ** The submit cycle from any state *)

Lemma runTasks_trace ctx (l : list (nat * task)) s :
  pendingResets l = 0 →
  trace (fold_left (λ a x, runTask ctx x.2 a) l s) = trace s.
Proof.
  revert s. induction l as [|[n t] l IH]; intros s; [done|].
  rewrite pendingResets_cons. unfold isReset. cbn [snd fold_left].
  destruct t as [c f|c f v|c]; simpl; intros Hp; try lia;
    by rewrite IH.
Qed.

(** X19.  The submit cycle, from any state a session reaches in which the
    form is not busy and [onVerify] succeeds, with or without edits whose
    deferred writes are still to run: after the click, the settling of the
    collaborator's promise when there is a collaborator, and the delay, the
    collaborator has been called once with the draft as it was at the
    click, the durable entry of the session is gone and every other entry
    is as before, the busy flag is off, the scroll to the top and the
    success notification have been requested, and the draft in memory is
    the draft found in the durable medium at mount. *)
Theorem X19_submit_cycle_from_any_state ctx M es0 s1 :
  loading (run ctx (mount ctx M) es0) = false →
  onVerify ctx (run ctx (mount ctx M) es0) = (Returns true, s1) →
  formDataMap
    (run ctx (mount ctx M)
       (es0 ++ (if submit ctx then [Click; Settle] else [Click])
            ++ [Elapse submitTimeout])) =
    delete (localKey ctx) (formDataMap (run ctx (mount ctx M) es0)) ∧
  formData
    (run ctx (mount ctx M)
       (es0 ++ (if submit ctx then [Click; Settle] else [Click])
            ++ [Elapse submitTimeout])) =
    default ∅ (M !! localKey ctx) ∧
  loading
    (run ctx (mount ctx M)
       (es0 ++ (if submit ctx then [Click; Settle] else [Click])
            ++ [Elapse submitTimeout])) = false ∧
  trace
    (run ctx (mount ctx M)
       (es0 ++ (if submit ctx then [Click; Settle] else [Click])
            ++ [Elapse submitTimeout])) =
    trace (run ctx (mount ctx M) es0)
      ++ (if submit ctx
          then [SubmitCall (formData (run ctx (mount ctx M) es0))] else [])
      ++ [ScrollToTop; Toast "actions.submitSucceed" 2000].
Proof.
  intros Hl E.
  pose proof (inFlight_run ctx M es0) as H0. rewrite Hl in H0.
  unfold inFlight in H0.
  pose proof (sorted_run ctx M es0) as Hsorted.
  pose proof (initialMap_run ctx M es0) as Hinit.
  rewrite !run_app. set (s := run ctx (mount ctx M) es0) in *.
  assert (Hp : pendingResets (timers s) = 0) by lia.
  assert (Ha : awaiting s = []).
  { destruct (awaiting s); [done|]. simpl in H0. lia. }
  destruct (onVerify_unchanged ctx s) as (EM & Ei & Ed & _ & En & Et & Ew).
  rewrite E in EM, Ei, Ed, En, Et, Ew. cbn [snd] in *.
  pose proof (onVerify_true _ _ _ E) as Es1.
  assert (Etr : trace s1 = trace s) by (by rewrite Es1).
  assert (E1 : step ctx s Click = onSubmit ctx s) by (simpl; by rewrite Hl).
  (* the state in which the delay starts *)
  set (c := capture s).
  assert (Hq : ∃ x, run ctx s (if submit ctx then [Click; Settle] else [Click])
                    = x ∧
             timers x = enqueue (now s + submitTimeout, ResetNotify c)
                          (timers s) ∧
             now x = now s ∧ initialMap x = initialMap s ∧
             trace x = trace s ++
               (if submit ctx then [SubmitCall (formData s)] else [])).
  { eexists. split; [reflexivity|].
    destruct (submit ctx) eqn:Hsub.
    - change (run ctx s [Click; Settle])
        with (step ctx (step ctx s Click) Settle).
      rewrite E1, (onSubmit_verified _ _ _ E), Hsub. cbn [step].
      cbn [suspend awaiting emit setLoading]. rewrite Ew, Ha.
      cbn. by rewrite Et, En, Ei, Etr.
    - change (run ctx s [Click]) with (step ctx s Click).
      rewrite E1, (onSubmit_verified _ _ _ E), Hsub.
      cbn. by rewrite Et, En, Ei, Etr, app_nil_r. }
  destruct Hq as (x & -> & Hqx & Hnx & Hix & Htx).
  cbn [run fold_left step]. unfold elapse.
  rewrite Hqx, Hnx, ready_enqueue by done. rewrite fold_left_app.
  cbn [fold_left snd].
  match goal with
  | |- context [runTask ctx (ResetNotify c) ?a] => set (a0 := a)
  end.
  assert (Ia : initialMap a0 = initialMap s).
  { unfold a0. by rewrite initialMap_runTasks. }
  assert (Ta : trace a0 = trace x).
  { unfold a0. rewrite runTasks_trace; [done|].
    rewrite (pendingResets_split (now s + submitTimeout)) in Hp. lia. }
  cbn. rewrite Ia, Ta, Htx, Hinit, <- !app_assoc. done.
Qed.

Lemma X19_submit_cycle_from_any_state_witness :
  loading (run (ctxAB true) (mount (ctxAB true) storeTwo)
             [Change "b" (VStr "y")]) = false ∧
  (onVerify (ctxAB true)
     (run (ctxAB true) (mount (ctxAB true) storeTwo)
        [Change "b" (VStr "y")])).1 = Returns true ∧
  formDataMap
    (run (ctxAB true) (mount (ctxAB true) storeTwo)
       ([Change "b" (VStr "y")]
          ++ (if submit (ctxAB true) then [Click; Settle] else [Click])
          ++ [Elapse submitTimeout])) =
    {[ "tbl2-viw2"%string := {[ "c"%string := VNum 7 ]} ]}.
Proof.
  split; [reflexivity|]. split; [reflexivity|].
  pose proof (X19_submit_cycle_from_any_state (ctxAB true) storeTwo
                [Change "b" (VStr "y")] _ eq_refl eq_refl) as (E & _).
  etransitivity; [exact E|]. reflexivity.
Defined.

(** ** C5 *)

Lemma persist_keeps_entry ctx (l : list (nat * task)) a :
  pendingResets l = 0 →
  is_Some (formDataMap a !! localKey ctx) →
  is_Some (formDataMap (fold_left (λ a x, runTask ctx x.2 a) l a)
             !! localKey ctx).
Proof.
  revert a. induction l as [|[n t] l IH]; intros a; [done|].
  rewrite pendingResets_cons. unfold isReset. cbn [snd fold_left].
  destruct t as [c f|c f v|c]; simpl; intros Hp Ha; try lia;
    apply IH; try done; simpl; rewrite lookup_insert_eq; eauto.
Qed.

(** C5, as the code has it.  The component has no reset of its own:
    [onReset] has one caller, the callback [onSubmit] schedules.  In a
    session that is not busy no reset is waiting and no continuation of
    [onSubmit] is suspended, and no event removes the durable entry of the
    session.  Whenever [onReset] runs, it removes the durable entry of the
    session and clears the busy flag, and it calls nothing: the effects,
    the timers and the suspended continuations are those of the state
    before. *)
Theorem C5_reset_only_after_submit ctx M es e c s :
  loading (run ctx (mount ctx M) es) = false →
  is_Some (formDataMap (run ctx (mount ctx M) es) !! localKey ctx) →
  pendingResets (timers (run ctx (mount ctx M) es)) = 0 ∧
  awaiting (run ctx (mount ctx M) es) = [] ∧
  is_Some (formDataMap (step ctx (run ctx (mount ctx M) es) e)
             !! localKey ctx) ∧
  formDataMap (onReset ctx c s) !! localKey ctx = None ∧
  loading (onReset ctx c s) = false ∧
  trace (onReset ctx c s) = trace s ∧
  timers (onReset ctx c s) = timers s ∧
  awaiting (onReset ctx c s) = awaiting s.
Proof.
  intros Hl Hk.
  pose proof (inFlight_run ctx M es) as H0. rewrite Hl in H0.
  unfold inFlight in H0. set (s0 := run ctx (mount ctx M) es) in *.
  assert (Hp : pendingResets (timers s0) = 0) by lia.
  assert (Ha : awaiting s0 = []).
  { destruct (awaiting s0); [done|]. simpl in H0. lia. }
  split; [done|]. split; [done|]. split.
  - destruct e as [f v| | | |d]; cbn [step].
    + by destruct (onChange_others ctx f v s0) as (-> & _).
    + rewrite Hl. unfold onSubmit.
      destruct (onVerify_unchanged ctx s0) as (EM & _).
      destruct (onVerify ctx s0) as [[|[|]] s1]; simpl in *;
        try (by rewrite EM).
      destruct (submit ctx); simpl; by rewrite EM.
    + by rewrite Ha.
    + done.
    + unfold elapse. cbn [formDataMap withQueue].
      apply persist_keeps_entry; [|done].
      rewrite (pendingResets_split (now s0 + d)) in Hp. lia.
  - destruct (onReset_effect ctx c s) as (_ & ? & ? & _ & ? & ? & ?).
    done.
Qed.

Lemma C5_reset_only_after_submit_witness :
  loading (run (ctxAB true) (mount (ctxAB true) storeAX)
             [Change "b" (VStr "y")]) = false ∧
  is_Some (formDataMap (run (ctxAB true) (mount (ctxAB true) storeAX)
                          [Change "b" (VStr "y")]) !! "tbl1-viw1"%string) ∧
  is_Some (formDataMap (run (ctxAB true) (mount (ctxAB true) storeAX)
                          [Change "b" (VStr "y"); Elapse 5000])
             !! "tbl1-viw1"%string).
Proof.
  assert (Hk : is_Some
            (formDataMap (run (ctxAB true) (mount (ctxAB true) storeAX)
                            [Change "b" (VStr "y")])
               !! localKey (ctxAB true))) by (eexists; reflexivity).
  split; [reflexivity|]. split; [exact Hk|].
  exact (proj1 (proj2 (proj2
           (C5_reset_only_after_submit (ctxAB true) storeAX
              [Change "b" (VStr "y")] (Elapse 5000)
              (capture (mount (ctxAB true) storeAX))
              (mount (ctxAB true) storeAX) eq_refl Hk)))).
Defined.

(** C5 as stated fails: the session is not busy and holds the draft
    [{a: "x"}], in memory and in the durable medium, and no event that can
    reach the component, a click on the submit button included, removes
    the durable entry. *)
Lemma C5_no_reset_without_submit :
  loading (mount (ctxAB true) storeAX) = false ∧
  formData (mount (ctxAB true) storeAX) = {[ "a"%string := VStr "x" ]} ∧
  ¬ ∃ e : event,
      formData (step (ctxAB true) (mount (ctxAB true) storeAX) e) = ∅ ∧
      formDataMap (step (ctxAB true) (mount (ctxAB true) storeAX) e)
        !! "tbl1-viw1"%string = None ∧
      loading (step (ctxAB true) (mount (ctxAB true) storeAX) e) = false.
Proof.
  split; [reflexivity|]. split; [reflexivity|].
  intros (e & _ & H & _). destruct e as [f v| | | |d].
  - cbn [step] in H.
    destruct (onChange_others (ctxAB true) f v (mount (ctxAB true) storeAX))
      as (E & _).
    rewrite E in H. discriminate H.
  - discriminate H.
  - discriminate H.
  - discriminate H.
  - discriminate H.
Qed.
